(** * The authentication page [src/pages/user/login.vue]

    A shallow embedding of the script of the login / register /
    reset-password page and of the template bindings that the properties
    below talk about.  The component's reactive variables become the fields
    of one record [St]; the browser's timer table (what [setInterval],
    [setTimeout], [clearInterval] and [clearTimeout] act on) is part of that
    record; every handler is a state-passing action that also emits the
    calls it makes to its collaborators (toasts, console, validators, the
    auth store and the send-code API).  An [async] handler is cut at its
    single [await]: the part before it, and the continuation that runs once
    the awaited promise has settled.  Time is not measured: a live timer may
    fire at any moment, and its delay is only recorded.  The two upload
    experiments of the script (handleAudioChange and [s]) touch none of the
    page's variables and are bound to no control; they are left out. *)

From stdpp Require Import gmap strings list fin_maps.
From Stdlib Require Import ZArith Ascii.

Local Open Scope Z_scope.
Local Open Scope string_scope.

(** ** Data *)

(** [currentMode], [loginType] and the purpose tag of a verification code. *)
Inductive Mode := ModeLogin | ModeRegister | ModeForgot.
Inductive LoginType := TypeCode | TypePassword.
Inductive CodeType := CodeLogin | CodeRegister | CodeResetPassword.

(** The [type] field of a login payload: ['email'] or ['phone']. *)
Inductive LoginKind := KindEmail | KindPhone.

#[global] Instance Mode_eq_dec : EqDecision Mode.
Proof. solve_decision. Defined.
#[global] Instance CodeType_eq_dec : EqDecision CodeType.
Proof. solve_decision. Defined.

(** The four reactive form objects. *)
Record LoginForm := { login_account : string; login_password : string }.
Record PhoneLoginForm := { phoneLogin_phone : string; phoneLogin_code : string }.
Record RegisterForm :=
  { register_phone : string; register_password : string;
    register_confirmPassword : string; register_code : string }.
Record ForgotForm :=
  { forgot_phone : string; forgot_code : string;
    forgot_newPassword : string; forgot_confirmPassword : string }.

(** Payloads handed to the validators and to the auth store; a field that
    the source leaves out or sets to [undefined] is [None]. *)
Record LoginPayload :=
  { lp_email : option string; lp_phone : option string;
    lp_password : option string; lp_code : option string;
    lp_type : LoginKind }.
Record RegisterPayload :=
  { rp_phone : string; rp_password : string; rp_code : string;
    rp_nickname : option string; rp_email : option string }.
Record ResetPayload :=
  { xp_phone : string; xp_email : option string; xp_code : string;
    xp_newPassword : string }.

(** What a validator returns, and what the API layer resolves to. *)
Record Validation := { isValid : bool; errors : gmap string string }.
Record Response := { success : bool; msg : option string }.

(** A thrown JavaScript value. *)
Inductive JsError := Error (message : string).

(** How an awaited promise settles. *)
Inductive Outcome := Resolved (r : Response) | Rejected (e : JsError).

(** *** Vue refs holding the error maps

    [loginErrors], [registerErrors] and [forgotErrors] are created with
    [ref<Record<string, string>>({})], not with the [$ref] macro the other
    variables use: inside the script each of them is the ref object, whose
    accessor property [value] holds the map.  The template reads
    [loginErrors.phone] through Vue's unwrapping of top-level refs, that is
    the entry of [value].  Besides [value] the ref object can carry own
    properties like every JavaScript object.  (Keys that collide with the
    private slots of Vue's ref implementation are outside the model.) *)
Inductive RefContent :=
| RObj (m : gmap string string)
| RStr (s : string).

Record ErrRef := { ref_value : RefContent; ref_props : gmap string string }.

(** [ref({})] *)
Definition new_ref : ErrRef := {| ref_value := RObj ∅; ref_props := ∅ |}.

(** [r.value = {}] *)
Definition reset_value (r : ErrRef) : ErrRef :=
  {| ref_value := RObj ∅; ref_props := ref_props r |}.

(** [Object.assign(r, src)] with the ref object itself as the target: every
    own key of [src] is written with an ordinary property set.  The key
    [value] reaches the ref's setter; every other key becomes (or
    overwrites) an own property of the ref object. *)
Definition Object_assign (r : ErrRef) (src : gmap string string) : ErrRef :=
  {| ref_value := match src !! "value" with
                  | Some v => RStr v
                  | None => ref_value r
                  end;
     ref_props := delete "value" src ∪ ref_props r |}.

(** What the template shows for [errs.key], e.g. [loginErrors.phone]: the
    entry of the unwrapped value. *)
Definition shown (r : ErrRef) (key : string) : option string :=
  match ref_value r with
  | RObj m => m !! key
  | RStr _ => None
  end.

(** *** Timers *)

(** The three callbacks the script registers. *)
Inductive Callback :=
| CbCountdown   (* the one-second tick of sendVerificationCode *)
| CbQRCheck     (* the poll of handleWechatLogin *)
| CbQRExpire.   (* the expiry of handleWechatLogin *)

#[global] Instance Callback_eq_dec : EqDecision Callback.
Proof. solve_decision. Defined.

Record Timer := { timer_cb : Callback; timer_delay : Z; timer_repeats : bool }.

(** Timer handles are the positive ids the browser hands out, so a non-null
    handle is truthy. *)
Abbreviation TimerId := positive (only parsing).

(** *** The component state *)

Record St := {
  (* page state *)
  currentMode : Mode;
  loginType : LoginType;
  isLoading : bool;
  isSendingCode : bool;
  codeCountdown : Z;
  showWechatQR : bool;
  wechatQRUrl : string;
  qrExpired : bool;
  qrScanned : bool;
  qrExpireTimer : option TimerId;
  qrCheckInterval : option TimerId;
  (* password visibility *)
  showLoginPassword : bool;
  showRegisterPassword : bool;
  showRegisterConfirmPassword : bool;
  showForgotPassword : bool;
  showForgotConfirmPassword : bool;
  (* form data *)
  loginForm : LoginForm;
  phoneLoginForm : PhoneLoginForm;
  registerForm : RegisterForm;
  forgotForm : ForgotForm;
  (* error messages *)
  loginErrors : ErrRef;
  registerErrors : ErrRef;
  forgotErrors : ErrRef;
  (* the browser's timer table: live timers, and the next id *)
  timers : gmap positive Timer;
  nextTimer : positive
}.

(** Assignment to one variable: the record rebuilt with that field replaced.
    [eta_St] lists the fields once; [setter] abstracts the chosen projection
    out of it. *)
Definition eta_St (s : St) : St :=
  Build_St (currentMode s) (loginType s) (isLoading s) (isSendingCode s)
    (codeCountdown s) (showWechatQR s) (wechatQRUrl s) (qrExpired s)
    (qrScanned s) (qrExpireTimer s) (qrCheckInterval s)
    (showLoginPassword s) (showRegisterPassword s)
    (showRegisterConfirmPassword s) (showForgotPassword s)
    (showForgotConfirmPassword s) (loginForm s) (phoneLoginForm s)
    (registerForm s) (forgotForm s) (loginErrors s) (registerErrors s)
    (forgotErrors s) (timers s) (nextTimer s).

Ltac setter proj :=
  let e := eval cbv delta [eta_St] in eta_St in
  match eval pattern proj in e with
  | ?F _ => let t := eval cbv beta in (fun v s => F (fun _ => v) s) in exact t
  end.

Definition set_currentMode : Mode -> St -> St := ltac:(setter currentMode).
Definition set_loginType : LoginType -> St -> St := ltac:(setter loginType).
Definition set_isLoading : bool -> St -> St := ltac:(setter isLoading).
Definition set_isSendingCode : bool -> St -> St := ltac:(setter isSendingCode).
Definition set_codeCountdown : Z -> St -> St := ltac:(setter codeCountdown).
Definition set_showWechatQR : bool -> St -> St := ltac:(setter showWechatQR).
Definition set_wechatQRUrl : string -> St -> St := ltac:(setter wechatQRUrl).
Definition set_qrExpired : bool -> St -> St := ltac:(setter qrExpired).
Definition set_qrScanned : bool -> St -> St := ltac:(setter qrScanned).
Definition set_qrExpireTimer : option TimerId -> St -> St :=
  ltac:(setter qrExpireTimer).
Definition set_qrCheckInterval : option TimerId -> St -> St :=
  ltac:(setter qrCheckInterval).
Definition set_showLoginPassword : bool -> St -> St :=
  ltac:(setter showLoginPassword).
Definition set_showRegisterPassword : bool -> St -> St :=
  ltac:(setter showRegisterPassword).
Definition set_showRegisterConfirmPassword : bool -> St -> St :=
  ltac:(setter showRegisterConfirmPassword).
Definition set_showForgotPassword : bool -> St -> St :=
  ltac:(setter showForgotPassword).
Definition set_showForgotConfirmPassword : bool -> St -> St :=
  ltac:(setter showForgotConfirmPassword).
Definition set_loginForm : LoginForm -> St -> St := ltac:(setter loginForm).
Definition set_phoneLoginForm : PhoneLoginForm -> St -> St :=
  ltac:(setter phoneLoginForm).
Definition set_registerForm : RegisterForm -> St -> St :=
  ltac:(setter registerForm).
Definition set_forgotForm : ForgotForm -> St -> St := ltac:(setter forgotForm).
Definition set_loginErrors : ErrRef -> St -> St := ltac:(setter loginErrors).
Definition set_registerErrors : ErrRef -> St -> St :=
  ltac:(setter registerErrors).
Definition set_forgotErrors : ErrRef -> St -> St := ltac:(setter forgotErrors).
Definition set_timers : gmap positive Timer -> St -> St := ltac:(setter timers).
Definition set_nextTimer : positive -> St -> St := ltac:(setter nextTimer).

(** ** Actions *)

(** Calls to the collaborators, in the order the script makes them. *)
Inductive Effect :=
| Toast_success (m : string)
| Toast_error (m : string)
| Toast_info (m : string)
| console_error (label : string) (e : JsError)
| Call_validateLoginForm (p : LoginPayload)
| Call_validateRegisterForm (p : RegisterPayload)
| Call_validateResetPasswordForm (p : ResetPayload)
| Call_sendCode (phone : string) (type : CodeType)
| Call_authStore_login (p : LoginPayload)
| Call_authStore_register (p : RegisterPayload)
| Call_authStore_resetPassword (p : ResetPayload).

(** A network call: what the auth store and the API layer are asked. *)
Definition is_network_call (e : Effect) : bool :=
  match e with
  | Call_sendCode _ _ | Call_authStore_login _ | Call_authStore_register _
  | Call_authStore_resetPassword _ => true
  | _ => false
  end.

Definition is_validator_call (e : Effect) : bool :=
  match e with
  | Call_validateLoginForm _ | Call_validateRegisterForm _
  | Call_validateResetPasswordForm _ => true
  | _ => false
  end.

(** A state-passing action that records the calls it makes. *)
Definition Act (A : Type) : Type := St -> St * list Effect * A.

#[global] Instance Act_ret : MRet Act := fun A a s => (s, [], a).
#[global] Instance Act_bind : MBind Act := fun A B f m s =>
  let '(s1, calls1, a) := m s in
  let '(s2, calls2, b) := f a s1 in
  (s2, (calls1 ++ calls2)%list, b).

Definition get {A} (proj : St -> A) : Act A := fun s => (s, [], proj s).
Definition upd (f : St -> St) : Act unit := fun s => (f s, [], ()).
Definition emit (e : Effect) : Act unit := fun s => (s, [e], ()).
Definition skip : Act unit := mret ().

(** An [if] without [else]. *)
Definition when (b : bool) (body : Act unit) : Act unit :=
  if b then body else skip.

(** Truthiness of a nullable handle, as in [if (qrExpireTimer)]. *)
Definition truthy {A} (h : option A) : bool :=
  match h with Some _ => true | None => false end.

(** [a === b] on modes. *)
Definition mode_eqb (a b : Mode) : bool :=
  match a, b with
  | ModeLogin, ModeLogin | ModeRegister, ModeRegister
  | ModeForgot, ModeForgot => true
  | _, _ => false
  end.

(** The state, the calls and the result of running an action. *)
Definition state_of {A} (r : St * list Effect * A) : St := r.1.1.
Definition calls_of {A} (r : St * list Effect * A) : list Effect := r.1.2.
Definition result_of {A} (r : St * list Effect * A) : A := r.2.

(** How a handler's promise settles, and where an [async] handler stands
    when control returns to the event loop: finished, or suspended at its
    [await]. *)
Inductive Completion := Returned | Thrown (e : JsError).

Inductive Pending :=
| AwaitSendCode | AwaitLogin | AwaitPhoneCodeLogin | AwaitRegister
| AwaitResetPassword.

#[global] Instance Pending_eq_dec : EqDecision Pending.
Proof. solve_decision. Defined.

Inductive Status := Finished (c : Completion) | Suspended (p : Pending).

(** *** Browser timers *)

Definition setInterval (cb : Callback) (ms : Z) : Act TimerId := fun s =>
  let id := nextTimer s in
  (set_nextTimer (id + 1)%positive
     (set_timers (<[id := Build_Timer cb ms true]> (timers s)) s), [], id).

Definition setTimeout (cb : Callback) (ms : Z) : Act TimerId := fun s =>
  let id := nextTimer s in
  (set_nextTimer (id + 1)%positive
     (set_timers (<[id := Build_Timer cb ms false]> (timers s)) s), [], id).

(** [clearTimeout] and [clearInterval] cancel the timer with the given id,
    whichever of the two created it; [null] or a dead id cancels nothing. *)
Definition clearTimeout (h : option TimerId) : Act unit :=
  match h with
  | Some id => upd (fun s => set_timers (delete id (timers s)) s)
  | None => skip
  end.

Definition clearInterval (h : option TimerId) : Act unit := clearTimeout h.

(** *** Constants and small helpers *)

Definition QR_EXPIRE_TIME : Z := 5 * 60 * 1000.

(** The placeholder image set by handleWechatLogin. *)
Definition placeholderQR : string :=
  "data:image/svg+xml;base64,PHN2ZyB3aWR0aD0iMjAwIiBoZWlnaHQ9IjIwMCIgeG1sbnM9Imh0dHA6Ly93d3cudzMub3JnLzIwMDAvc3ZnIj4KICA8cmVjdCB3aWR0aD0iMjAwIiBoZWlnaHQ9IjIwMCIgZmlsbD0iI2Y1ZjVmNSIvPgogIDx0ZXh0IHg9IjUwJSIgeT0iNTAlIiB0ZXh0LWFuY2hvcj0ibWlkZGxlIiBkeT0iLjNlbSIgZm9udC1zaXplPSIxNCIgZmlsbD0iIzk5OTk5OSI+55So5o6l566h55CG6L295Lit6K+B77yBPC90ZXh0Pgo8L3N2Zz4K".

(** [s.includes(c)] for a one-character needle. *)
Fixpoint includes (c : ascii) (s : string) : bool :=
  match s with
  | EmptyString => false
  | String a rest => if Ascii.eqb a c then true else includes c rest
  end.

(** *** JavaScript numbers

    codeCountdown is a JavaScript number.  The values it takes here are
    whole numbers, kept as a [Z]; arithmetic on them is that of IEEE 754
    doubles: exact as long as the result has magnitude at most 2^53, and
    rounded to the nearest double, ties to the even mantissa, beyond.
    (Magnitudes past the largest double, where the result is Infinity, are
    not modelled; subtracting 1 from a double never gets there.) *)

(** The double nearest to a whole number. *)
Definition round_double (z : Z) : Z :=
  let a := Z.abs z in
  if (a <=? 2 ^ 53)%Z then z
  else
    let sh := (Z.log2 a - 52)%Z in     (* weight of the last mantissa bit *)
    let q := (a / 2 ^ sh)%Z in         (* the 53-bit mantissa, cut off *)
    let r := (a mod 2 ^ sh)%Z in       (* what was cut off *)
    let half := (2 ^ (sh - 1))%Z in
    let q' := if (half <? r)%Z || ((r =? half)%Z && Z.odd q)
              then (q + 1)%Z else q in
    (Z.sgn z * (q' * 2 ^ sh))%Z.

(** The whole numbers a JavaScript number can hold. *)
Definition js_number (n : Z) : Prop := round_double n = n.

(** [n--] on a number: the double nearest to n - 1.  On every [js_number]
    that double is at most n (lemma [js_dec_js_number]); the [Z.min] only
    says what the model does on whole numbers no JavaScript variable can
    hold. *)
Definition js_dec (n : Z) : Z := Z.min n (round_double (n - 1)).

Arguments js_dec : simpl never.

(** [m || fallback] on an optional message: [undefined] and the empty
    string are falsy. *)
Definition or_default (m : option string) (fallback : string) : string :=
  match m with
  | Some x => if String.eqb x "" then fallback else x
  | None => fallback
  end.

(** *** Timers of the QR panel *)

Definition clearQRTimers : Act unit :=
  t ← get qrExpireTimer;
  when (truthy t)
    (clearTimeout t;; upd (set_qrExpireTimer None));;
  i ← get qrCheckInterval;
  when (truthy i)
    (clearInterval i;; upd (set_qrCheckInterval None)).

(** The [try] block of handleWechatLogin awaits nothing (the backend call is
    commented out) and none of its statements throws, so its [catch] branch
    is never entered and the promise always resolves. *)
Definition handleWechatLogin : Act Completion :=
  upd (set_showWechatQR true);;
  upd (set_qrExpired false);;
  upd (set_qrScanned false);;
  upd (set_wechatQRUrl placeholderQR);;
  i ← setInterval CbQRCheck 2000;
  upd (set_qrCheckInterval (Some i));;
  t ← setTimeout CbQRExpire QR_EXPIRE_TIME;
  upd (set_qrExpireTimer (Some t));;
  mret Returned.

(** handleWechatLogin has no [await] inside, so it runs to its end when
    refreshQRCode calls it; nothing follows the [await] of its promise. *)
Definition refreshQRCode : Act Completion :=
  clearQRTimers;;
  upd (set_qrExpired false);;
  upd (set_qrScanned false);;
  handleWechatLogin.

Definition clearErrors : Act unit :=
  upd (fun s => set_loginErrors (reset_value (loginErrors s)) s);;
  upd (fun s => set_registerErrors (reset_value (registerErrors s)) s);;
  upd (fun s => set_forgotErrors (reset_value (forgotErrors s)) s).

Definition switchMode (mode : Mode) : Act unit :=
  upd (set_currentMode mode);;
  clearErrors;;
  when (mode_eqb mode ModeRegister || mode_eqb mode ModeForgot)
    (showing ← get showWechatQR;
     when showing
       (clearQRTimers;;
        upd (set_showWechatQR false);;
        upd (set_qrExpired false))).

(** The callbacks, run by the browser when a timer fires. *)
Definition countdown_tick (timer : TimerId) : Act unit :=
  upd (fun s => set_codeCountdown (js_dec (codeCountdown s)) s);;
  n ← get codeCountdown;
  when (n <=? 0)%Z (clearInterval (Some timer)).

Definition qr_check_tick : Act unit := skip.

Definition qr_expire : Act unit :=
  upd (set_qrExpired true);;
  upd (set_qrScanned false);;
  i ← get qrCheckInterval;
  clearInterval i;;
  upd (set_qrCheckInterval None);;
  emit (Toast_info "二维码已过期，请点击刷新").

Definition run_callback (cb : Callback) (id : TimerId) : Act unit :=
  match cb with
  | CbCountdown => countdown_tick id
  | CbQRCheck => qr_check_tick
  | CbQRExpire => qr_expire
  end.

(** The browser fires the live timer [id]: a timeout leaves the timer table
    before its callback runs, an interval stays.  A dead id fires nothing. *)
Definition fire (id : TimerId) : Act unit := fun s =>
  match timers s !! id with
  | Some t =>
      run_callback (timer_cb t) id
        (if timer_repeats t then s else set_timers (delete id (timers s)) s)
  | None => (s, [], ())
  end.

Definition onBeforeUnmount : Act unit := clearQRTimers.

(** [route.query.redirect], when truthy, only produces a toast. *)
Definition onMounted (redirect : option string) : Act unit :=
  match redirect with
  | Some r => when (negb (String.eqb r ""))
                (emit (Toast_info "请先登录后再访问该页面"))
  | None => skip
  end.

(** ** The state the component starts in

    The initial values of the declarations at the top of the script; no
    timer exists yet. *)
Definition init : St :=
  {| currentMode := ModeLogin;
     loginType := TypeCode;
     isLoading := false;
     isSendingCode := false;
     codeCountdown := 0;
     showWechatQR := true;
     wechatQRUrl := "";
     qrExpired := false;
     qrScanned := true;
     qrExpireTimer := None;
     qrCheckInterval := None;
     showLoginPassword := false;
     showRegisterPassword := false;
     showRegisterConfirmPassword := false;
     showForgotPassword := false;
     showForgotConfirmPassword := false;
     loginForm := {| login_account := ""; login_password := "" |};
     phoneLoginForm := {| phoneLogin_phone := ""; phoneLogin_code := "" |};
     registerForm :=
       {| register_phone := ""; register_password := "";
          register_confirmPassword := ""; register_code := "" |};
     forgotForm :=
       {| forgot_phone := ""; forgot_code := ""; forgot_newPassword := "";
          forgot_confirmPassword := "" |};
     loginErrors := new_ref;
     registerErrors := new_ref;
     forgotErrors := new_ref;
     timers := ∅;
     nextTimer := 1 |}.

(** ** Template bindings *)

(** [:disabled="isSendingCode || codeCountdown > 0"], the same expression on
    each of the three send-code buttons. *)
Definition resendDisabled (button : CodeType) (s : St) : bool :=
  isSendingCode s || (0 <? codeCountdown s)%Z.

(** The phone number the button passes to sendVerificationCode. *)
Definition resendPhone (button : CodeType) (s : St) : string :=
  match button with
  | CodeLogin => phoneLogin_phone (phoneLoginForm s)
  | CodeRegister => register_phone (registerForm s)
  | CodeResetPassword => forgot_phone (forgotForm s)
  end.

(** The QR column is rendered under [v-if="currentMode === 'login'"]. *)
Definition qrColumnRendered (s : St) : bool :=
  mode_eqb (currentMode s) ModeLogin.

(** [v-if="showWechatQR && qrScanned && !qrExpired"] of the "scanned"
    overlay, and [v-if="showWechatQR && qrExpired"] of the "expired" one. *)
Definition scannedOverlay (s : St) : bool :=
  showWechatQR s && qrScanned s && negb (qrExpired s).

Definition expiredOverlay (s : St) : bool :=
  showWechatQR s && qrExpired s.

(** ** The page's events

    What can happen to the page: the user edits a field, clicks a tab, a
    toggle, a button or a link; a pending promise settles; a live timer
    fires; the page is unmounted. *)

Inductive Field :=
| F_login_account | F_login_password
| F_phoneLogin_phone | F_phoneLogin_code
| F_register_phone | F_register_password | F_register_confirmPassword
| F_register_code
| F_forgot_phone | F_forgot_code | F_forgot_newPassword
| F_forgot_confirmPassword.

(** [v-model] on a form field. *)
Definition edit (f : Field) (v : string) (s : St) : St :=
  let lf := loginForm s in
  let pf := phoneLoginForm s in
  let rf := registerForm s in
  let ff := forgotForm s in
  match f with
  | F_login_account =>
      set_loginForm (Build_LoginForm v (login_password lf)) s
  | F_login_password =>
      set_loginForm (Build_LoginForm (login_account lf) v) s
  | F_phoneLogin_phone =>
      set_phoneLoginForm (Build_PhoneLoginForm v (phoneLogin_code pf)) s
  | F_phoneLogin_code =>
      set_phoneLoginForm (Build_PhoneLoginForm (phoneLogin_phone pf) v) s
  | F_register_phone =>
      set_registerForm
        (Build_RegisterForm v (register_password rf)
           (register_confirmPassword rf) (register_code rf)) s
  | F_register_password =>
      set_registerForm
        (Build_RegisterForm (register_phone rf) v
           (register_confirmPassword rf) (register_code rf)) s
  | F_register_confirmPassword =>
      set_registerForm
        (Build_RegisterForm (register_phone rf) (register_password rf) v
           (register_code rf)) s
  | F_register_code =>
      set_registerForm
        (Build_RegisterForm (register_phone rf) (register_password rf)
           (register_confirmPassword rf) v) s
  | F_forgot_phone =>
      set_forgotForm
        (Build_ForgotForm v (forgot_code ff) (forgot_newPassword ff)
           (forgot_confirmPassword ff)) s
  | F_forgot_code =>
      set_forgotForm
        (Build_ForgotForm (forgot_phone ff) v (forgot_newPassword ff)
           (forgot_confirmPassword ff)) s
  | F_forgot_newPassword =>
      set_forgotForm
        (Build_ForgotForm (forgot_phone ff) (forgot_code ff) v
           (forgot_confirmPassword ff)) s
  | F_forgot_confirmPassword =>
      set_forgotForm
        (Build_ForgotForm (forgot_phone ff) (forgot_code ff)
           (forgot_newPassword ff) v) s
  end.

Inductive Toggle :=
| T_login | T_register | T_registerConfirm | T_forgot | T_forgotConfirm.

(** [@click="showLoginPassword = !showLoginPassword"] and its siblings. *)
Definition toggle (t : Toggle) (s : St) : St :=
  match t with
  | T_login => set_showLoginPassword (negb (showLoginPassword s)) s
  | T_register => set_showRegisterPassword (negb (showRegisterPassword s)) s
  | T_registerConfirm =>
      set_showRegisterConfirmPassword
        (negb (showRegisterConfirmPassword s)) s
  | T_forgot => set_showForgotPassword (negb (showForgotPassword s)) s
  | T_forgotConfirm =>
      set_showForgotConfirmPassword (negb (showForgotConfirmPassword s)) s
  end.

Inductive Event :=
| EvEdit (f : Field) (v : string)
| EvLoginType (t : LoginType)
| EvToggle (t : Toggle)
| EvResend (button : CodeType)
| EvPhoneCodeLogin
| EvRegister
| EvForgotPassword
| EvSwitchMode (m : Mode)
| EvRefreshQRCode
| EvLogin
| EvWechatLogin
| EvSettle (p : Pending) (o : Outcome)
| EvFire (id : TimerId)
| EvUnmount.

(** The page, the awaits that have not settled yet, and whether the
    component is still mounted. *)
Record World := { page : St; inflight : list Pending; mounted : bool }.

Definition init_world : World :=
  {| page := init; inflight := []; mounted := true |}.

(** Removes the first occurrence of a pending await, if there is one. *)
Fixpoint remove_one (p : Pending) (l : list Pending)
  : option (list Pending) :=
  match l with
  | [] => None
  | q :: l' =>
      if decide (p = q) then Some l' else (q ::.) <$> remove_one p l'
  end.

(** ** Properties of states *)

(** Every live timer of the QR panel is the one its handle names. *)
Definition qr_owned (s : St) : Prop :=
  map_Forall (fun id t =>
    (timer_cb t = CbQRCheck -> qrCheckInterval s = Some id) ∧
    (timer_cb t = CbQRExpire -> qrExpireTimer s = Some id)) (timers s).

#[global] Instance qr_owned_dec s : Decision (qr_owned s).
Proof. unfold qr_owned. apply _. Defined.

(** No callback of the QR panel is scheduled. *)
Definition no_qr_timer (s : St) : Prop :=
  map_Forall (fun _ t => timer_cb t = CbCountdown) (timers s).

(** The timer a handle names is live and runs the given callback. *)
Definition live (h : option TimerId) (cb : Callback) (s : St) : Prop :=
  ∃ id t, h = Some id ∧ timers s !! id = Some t ∧ timer_cb t = cb.

(** A handle is null, or names a live timer that runs the given callback. *)
Definition live_or_null (h : option TimerId) (cb : Callback) (s : St)
  : Prop :=
  ∀ id, h = Some id -> ∃ t, timers s !! id = Some t ∧ timer_cb t = cb.

(** Ids are handed out in increasing order. *)
Definition ids_fresh (s : St) : Prop :=
  map_Forall (fun id _ => (id < nextTimer s)%positive) (timers s).

(** The poll handle, when set, names the live poll interval. *)
Definition poll_timer : Timer := Build_Timer CbQRCheck 2000 true.

Definition poll_live (s : St) : Prop :=
  ∀ id, qrCheckInterval s = Some id -> timers s !! id = Some poll_timer.

(** What "non-null only while active" asks of both handles. *)
Definition handles_name_live_timers (s : St) : Prop :=
  live_or_null (qrCheckInterval s) CbQRCheck s ∧
  live_or_null (qrExpireTimer s) CbQRExpire s.

(** [clearTimeout h] on the timer table. *)
Definition cancel (h : option TimerId) (m : gmap positive Timer)
  : gmap positive Timer :=
  match h with Some id => delete id m | None => m end.

Definition countdown_timer : Timer := Build_Timer CbCountdown 1000 true.

(** Same timer table, same next id, same two handles. *)
Definition same_timers (s s' : St) : Prop :=
  timers s' = timers s ∧ nextTimer s' = nextTimer s ∧
  qrCheckInterval s' = qrCheckInterval s ∧
  qrExpireTimer s' = qrExpireTimer s.

(** At most one live timer runs the poll callback, and at most one the
    expiry callback. *)
Definition single_qr_timers (s : St) : Prop :=
  ∀ i j t t', timers s !! i = Some t -> timers s !! j = Some t' ->
    timer_cb t = timer_cb t' -> timer_cb t ≠ CbCountdown -> i = j.

(** How many [await sendCode] are pending. *)
Definition sends_inflight (w : World) : nat :=
  count_occ Pending_eq_dec (inflight w) AwaitSendCode.

(** The flag [isSendingCode] tells whether a send is in flight. *)
Definition sending_tracked (w : World) : Prop :=
  sends_inflight w = if isSendingCode (page w) then 1%nat else 0%nat.

(** ** Sample collaborators

    Concrete stand-ins for the imported validators and phone configuration,
    used to run the handlers on concrete inputs. *)

Definition missing_phone : Validation :=
  {| isValid := false; errors := {[ "phone" := "请输入手机号" ]} |}.

Definition passes : Validation := {| isValid := true; errors := ∅ |}.

Definition sample_validateLoginForm (p : LoginPayload) : Validation :=
  match lp_phone p with
  | Some ph => if String.eqb ph "" then missing_phone else passes
  | None => passes
  end.

Definition sample_validateRegisterForm (p : RegisterPayload) : Validation :=
  if String.eqb (rp_phone p) "" then missing_phone else passes.

Definition sample_validateResetPasswordForm (p : ResetPayload) : Validation :=
  if String.eqb (xp_phone p) "" then missing_phone else passes.

Definition sample_phoneRegex_test (phone : string) : bool :=
  Nat.eqb (String.length phone) 11.

Definition sample_sendInterval : Z := 60.

(** Sample states: the QR flow started from the initial state (poll interval
    1, expiry timeout 2); a register form and a reset form whose two
    passwords differ. *)
Definition qr_running : St := state_of (refreshQRCode init).

Definition register_mismatch : St :=
  set_registerForm
    {| register_phone := "13800000000"; register_password := "secret1";
       register_confirmPassword := "secret2"; register_code := "1234" |}
    init.

Definition forgot_mismatch : St :=
  set_forgotForm
    {| forgot_phone := "13800000000"; forgot_code := "1234";
       forgot_newPassword := "secret1"; forgot_confirmPassword := "secret2" |}
    init.

(** The page after the QR flow was started through refreshQRCode. *)
Definition qr_running_world : World :=
  {| page := qr_running; inflight := []; mounted := true |}.

(** The page after the expiry timeout (id 2) of that flow has fired. *)
Definition qr_expired_world : World :=
  {| page := state_of (fire 2 qr_running); inflight := []; mounted := true |}.

(** The page while a verification code is being sent to a phone number the
    sample regex accepts. *)
Definition sending_world : World :=
  {| page := set_isSendingCode true
               (edit F_phoneLogin_phone "13800000000" init);
     inflight := [AwaitSendCode];
     mounted := true |}.

(** A continuation that met a rejected promise caught it, logged it and
    showed an error toast. *)
Definition caught_and_reported (r : St * list Effect * Completion) : Prop :=
  result_of r = Returned ∧
  (∃ label e, console_error label e ∈ calls_of r) ∧
  (∃ m, Toast_error m ∈ calls_of r).

(** ** Handlers that talk to the collaborators, and the page as a machine *)

Section Component.

(** The validation utility and the phone configuration are imported from
    modules outside this file. *)
Variable validateLoginForm : LoginPayload -> Validation.
Variable validateRegisterForm : RegisterPayload -> Validation.
Variable validateResetPasswordForm : ResetPayload -> Validation.
(** [PHONE_CONFIG.phoneRegex.test] and [PHONE_CONFIG.sendInterval] *)
Variable phoneRegex_test : string -> bool.
Variable sendInterval : Z.

(** *** sendVerificationCode *)

Definition sendVerificationCode (phone : string) (type : CodeType)
  : Act Status :=
  if String.eqb phone "" then
    emit (Toast_error "请输入手机号");;
    mret (Finished Returned)
  else if negb (phoneRegex_test phone) then
    emit (Toast_error "请输入有效的手机号");;
    mret (Finished Returned)
  else
    upd (set_isSendingCode true);;
    emit (Call_sendCode phone type);;
    mret (Suspended AwaitSendCode).

(** After [await sendCode(...)]: the rest of the [try], the [catch] and
    the [finally]. *)
Definition sendVerificationCode_resume (o : Outcome) : Act Completion :=
  match o with
  | Resolved response =>
      if success response then
        emit (Toast_success "验证码已发送");;
        upd (set_codeCountdown sendInterval);;
        _ ← setInterval CbCountdown 1000;
        skip
      else
        emit (Toast_error (or_default (msg response) "发送失败"))
  | Rejected error =>
      emit (console_error "Send code error:" error);;
      emit (Toast_error "发送验证码失败")
  end;;
  upd (set_isSendingCode false);;
  mret Returned.

(** *** handleLogin and handlePhoneCodeLogin *)

(** The object literal handleLogin passes to the validator and again to
    the store: the account goes to [email] when it contains an at sign,
    to [phone] otherwise. *)
Definition loginPayload (form : LoginForm) : LoginPayload :=
  let isEmail := includes "@" (login_account form) in
  {| lp_email := if isEmail then Some (login_account form) else None;
     lp_phone := if negb isEmail then Some (login_account form) else None;
     lp_password := Some (login_password form);
     lp_code := None;
     lp_type := KindEmail |}.

Definition phoneLoginPayload (form : PhoneLoginForm) : LoginPayload :=
  {| lp_email := None;
     lp_phone := Some (phoneLogin_phone form);
     lp_password := None;
     lp_code := Some (phoneLogin_code form);
     lp_type := KindPhone |}.

Definition registerPayload (form : RegisterForm) : RegisterPayload :=
  {| rp_phone := register_phone form;
     rp_password := register_password form;
     rp_code := register_code form;
     rp_nickname := None;
     rp_email := None |}.

Definition resetPayload (form : ForgotForm) : ResetPayload :=
  {| xp_phone := forgot_phone form;
     xp_email := None;
     xp_code := forgot_code form;
     xp_newPassword := forgot_newPassword form |}.

Definition handleLogin : Act Status :=
  form ← get loginForm;
  let payload := loginPayload form in
  emit (Call_validateLoginForm payload);;
  let validation := validateLoginForm payload in
  if negb (isValid validation) then
    upd (fun s =>
      set_loginErrors (Object_assign (loginErrors s) (errors validation)) s);;
    mret (Finished Returned)
  else
    upd (set_isLoading true);;
    emit (Call_authStore_login payload);;
    mret (Suspended AwaitLogin).

(** [try { await authStore.login(...) } finally { isLoading = false }]:
    there is no [catch], a rejection leaves the handler. *)
Definition handleLogin_resume (o : Outcome) : Act Completion :=
  upd (set_isLoading false);;
  mret (match o with Resolved _ => Returned | Rejected e => Thrown e end).

Definition handlePhoneCodeLogin : Act Status :=
  form ← get phoneLoginForm;
  let payload := phoneLoginPayload form in
  emit (Call_validateLoginForm payload);;
  let validation := validateLoginForm payload in
  if negb (isValid validation) then
    upd (fun s =>
      set_loginErrors (Object_assign (loginErrors s) (errors validation)) s);;
    mret (Finished Returned)
  else
    upd (set_isLoading true);;
    emit (Call_authStore_login payload);;
    mret (Suspended AwaitPhoneCodeLogin).

Definition handlePhoneCodeLogin_resume (o : Outcome) : Act Completion :=
  upd (set_isLoading false);;
  mret (match o with Resolved _ => Returned | Rejected e => Thrown e end).

(** *** handleRegister *)

Definition handleRegister : Act Status :=
  form ← get registerForm;
  if negb (String.eqb (register_password form)
                       (register_confirmPassword form))
  then
    emit (Toast_error "两次密码输入不一致");;
    mret (Finished Returned)
  else
    let payload := registerPayload form in
    emit (Call_validateRegisterForm payload);;
    let validation := validateRegisterForm payload in
    if negb (isValid validation) then
      upd (fun s =>
        set_registerErrors
          (Object_assign (registerErrors s) (errors validation)) s);;
      mret (Finished Returned)
    else
      upd (set_isLoading true);;
      emit (Call_authStore_register payload);;
      mret (Suspended AwaitRegister).

Definition handleRegister_resume (o : Outcome) : Act Completion :=
  upd (set_isLoading false);;
  mret (match o with Resolved _ => Returned | Rejected e => Thrown e end).

(** *** handleForgotPassword *)

Definition handleForgotPassword : Act Status :=
  form ← get forgotForm;
  if negb (String.eqb (forgot_newPassword form)
                       (forgot_confirmPassword form))
  then
    emit (Toast_error "两次密码输入不一致");;
    mret (Finished Returned)
  else
    let payload := resetPayload form in
    emit (Call_validateResetPasswordForm payload);;
    let validation := validateResetPasswordForm payload in
    if negb (isValid validation) then
      upd (fun s =>
        set_forgotErrors
          (Object_assign (forgotErrors s) (errors validation)) s);;
      mret (Finished Returned)
    else
      upd (set_isLoading true);;
      emit (Call_authStore_resetPassword payload);;
      mret (Suspended AwaitResetPassword).

Definition handleForgotPassword_resume (o : Outcome) : Act Completion :=
  match o with
  | Resolved response =>
      (if success response then
         emit (Toast_success "密码重置成功，请重新登录");;
         switchMode ModeLogin
       else
         emit (Toast_error (or_default (msg response) "重置失败")));;
      upd (set_isLoading false);;
      mret Returned
  | Rejected e =>
      upd (set_isLoading false);;
      mret (Thrown e)
  end.


(** *** The page as a transition system

    What can happen to a mounted page: the user edits a field, clicks a
    tab, a toggle, a button or a link; a pending promise settles; a live
    timer fires; the page is unmounted.  The send-code buttons carry a
    [disabled] binding, so their click is an event only while the binding
    is false.  The render conditions ([v-if]) of the other controls are
    not enabling conditions here, and the two handlers that this template
    does not bind to a control (handleLogin; handleWechatLogin, which the
    script reaches through refreshQRCode) are events of their own: [step]
    admits more runs than the page has, so what holds in every state it
    reaches holds in every state of the page.  [page_step] below keeps the
    events the template offers. *)

(** The continuation that a settled promise resumes. *)
Definition resume (p : Pending) (o : Outcome) : Act Completion :=
  match p with
  | AwaitSendCode => sendVerificationCode_resume o
  | AwaitLogin => handleLogin_resume o
  | AwaitPhoneCodeLogin => handlePhoneCodeLogin_resume o
  | AwaitRegister => handleRegister_resume o
  | AwaitResetPassword => handleForgotPassword_resume o
  end.

(** A user event runs a handler on a mounted page; a handler that stops
    at its [await] adds that await to the pending ones. *)
Definition sync (w : World) (s' : St) : option World :=
  if mounted w then
    Some {| page := s'; inflight := inflight w; mounted := true |}
  else None.

Definition launch (w : World) (h : Act Status) : option World :=
  if mounted w then
    let r := h (page w) in
    Some {| page := state_of r;
            inflight := match result_of r with
                        | Suspended p => p :: inflight w
                        | Finished _ => inflight w
                        end;
            mounted := true |}
  else None.

Definition step (e : Event) (w : World) : option World :=
  let s := page w in
  match e with
  | EvEdit f v => sync w (edit f v s)
  | EvLoginType t => sync w (set_loginType t s)
  | EvToggle t => sync w (toggle t s)
  | EvResend button =>
      if resendDisabled button s then None
      else launch w (sendVerificationCode (resendPhone button s) button)
  | EvPhoneCodeLogin => launch w handlePhoneCodeLogin
  | EvRegister => launch w handleRegister
  | EvForgotPassword => launch w handleForgotPassword
  | EvSwitchMode m => sync w (state_of (switchMode m s))
  | EvRefreshQRCode => sync w (state_of (refreshQRCode s))
  | EvLogin => launch w handleLogin
  | EvWechatLogin => sync w (state_of (handleWechatLogin s))
  | EvSettle p o =>
      rest ← remove_one p (inflight w);
      Some {| page := state_of (resume p o s); inflight := rest;
              mounted := mounted w |}
  | EvFire id =>
      match timers s !! id with
      | Some _ =>
          Some {| page := state_of (fire id s); inflight := inflight w;
                  mounted := mounted w |}
      | None => None
      end
  | EvUnmount =>
      if mounted w then
        Some {| page := state_of (onBeforeUnmount s);
                inflight := inflight w; mounted := false |}
      else None
  end.

Fixpoint run (evs : list Event) (w : World) : option World :=
  match evs with
  | [] => Some w
  | e :: evs' => w' ← step e w; run evs' w'
  end.

Inductive reachable : World -> Prop :=
| reachable_init : reachable init_world
| reachable_step e w w' :
    reachable w -> step e w = Some w' -> reachable w'.

(** *** The page as rendered

    The template offers less than [step] admits.  handleWechatLogin is
    called by refreshQRCode only (line 250) and handleLogin is bound to no
    control, so neither is an event of the page.  The refresh button sits
    inside the "expired" overlay of the QR column (lines 684 and 712 to
    718), so a click on it is an event only while that overlay is
    rendered.  The render conditions of the other controls are left out,
    which only adds runs. *)
Definition offered (e : Event) (s : St) : bool :=
  match e with
  | EvWechatLogin | EvLogin => false
  | EvRefreshQRCode => qrColumnRendered s && expiredOverlay s
  | _ => true
  end.

Definition page_step (e : Event) (w : World) : option World :=
  if offered e (page w) then step e w else None.

Inductive page_reachable : World -> Prop :=
| page_reachable_init : page_reachable init_world
| page_reachable_step e w w' :
    page_reachable w -> page_step e w = Some w' -> page_reachable w'.

(** ** What a step does *)

(** What a step does, as far as the timers, [isSendingCode] and the
    pending awaits are concerned. *)
Inductive shape (e : Event) (w w' : World) : Prop :=
| shape_frame :
    same_timers (page w) (page w') ->
    isSendingCode (page w') = isSendingCode (page w) ->
    sends_inflight w' = sends_inflight w ->
    shape e w w'
| shape_send :
    resendDisabled CodeLogin (page w) = false ->
    same_timers (page w) (page w') ->
    isSendingCode (page w') = true ->
    sends_inflight w' = S (sends_inflight w) ->
    shape e w w'
| shape_sent o :
    sends_inflight w = S (sends_inflight w') ->
    page w' = state_of (sendVerificationCode_resume o (page w)) ->
    shape e w w'
| shape_clear :
    same_timers (state_of (clearQRTimers (page w))) (page w') ->
    isSendingCode (page w') = isSendingCode (page w) ->
    sends_inflight w' = sends_inflight w ->
    shape e w w'
| shape_refresh :
    page w' = state_of (refreshQRCode (page w)) ->
    sends_inflight w' = sends_inflight w ->
    shape e w w'
| shape_start :
    e = EvWechatLogin ->
    page w' = state_of (handleWechatLogin (page w)) ->
    sends_inflight w' = sends_inflight w ->
    shape e w w'
| shape_fire id t :
    timers (page w) !! id = Some t ->
    page w' = state_of (fire id (page w)) ->
    sends_inflight w' = sends_inflight w ->
    shape e w w'.

(** ** Proof support *)

(** Run an action symbolically: unfold the monad and the handlers, then
    split on whichever test blocks the computation. *)
Ltac act_unfold :=
  unfold switchMode, clearErrors, refreshQRCode, handleWechatLogin,
    onBeforeUnmount, clearQRTimers, qr_expire, qr_check_tick,
    countdown_tick, clearInterval, clearTimeout, setInterval, setTimeout,
    handleLogin, handlePhoneCodeLogin, handleRegister,
    handleForgotPassword, sendVerificationCode,
    sendVerificationCode_resume, handleLogin_resume,
    handlePhoneCodeLogin_resume, handleRegister_resume,
    handleForgotPassword_resume, resume,
    mbind, mret, Act_bind, Act_ret, get, upd, emit, skip, when, truthy,
    state_of, calls_of, result_of.

Ltac split_test :=
  match goal with
  | |- context [if ?c then _ else _] =>
      lazymatch c with
      | context [if _ then _ else _] => fail
      | _ => destruct c eqn:?
      end
  end.

Ltac act_run := act_unfold; cbn; repeat (split_test; cbn).

Lemma cancel_lookup_self h m id : h = Some id -> cancel h m !! id = None.
Proof. intros ->. apply lookup_delete_eq. Qed.

Lemma cancel_lookup_Some h m id t :
  cancel h m !! id = Some t -> m !! id = Some t ∧ h ≠ Some id.
Proof.
  destruct h as [j|]; simpl; [|by intros ?; split].
  rewrite lookup_delete. case_decide; [done|].
  intros ?; split; [done|congruence].
Qed.

Lemma cancel_lookup_None h m id : m !! id = None -> cancel h m !! id = None.
Proof.
  destruct h as [j|]; simpl; [|done]. intros ?.
  rewrite lookup_delete. by case_decide.
Qed.

Lemma clearQRTimers_eq s :
  clearQRTimers s =
  (set_qrCheckInterval None
     (set_qrExpireTimer None
        (set_timers
           (cancel (qrCheckInterval s)
              (cancel (qrExpireTimer s) (timers s)))
           s)), [], ()).
Proof.
  destruct s as [? ? ? ? ? ? ? ? ? t i ? ? ? ? ? ? ? ? ? ? ? ? tm nx].
  destruct t, i; reflexivity.
Qed.

Lemma qr_expire_eq s :
  state_of (qr_expire s) =
  set_qrCheckInterval None
    (set_timers (cancel (qrCheckInterval s) (timers s))
       (set_qrScanned false (set_qrExpired true s))).
Proof.
  destruct s as [? ? ? ? ? ? ? ? ? t i ? ? ? ? ? ? ? ? ? ? ? ? tm nx].
  destruct i; reflexivity.
Qed.

Lemma fire_live s id t :
  timers s !! id = Some t ->
  fire id s =
    run_callback (timer_cb t) id
      (if timer_repeats t then s else set_timers (delete id (timers s)) s).
Proof. intros H. unfold fire. by rewrite H. Qed.

Lemma switchMode_away mode s :
  mode = ModeRegister ∨ mode = ModeForgot ->
  showWechatQR s = true ->
  state_of (switchMode mode s) =
    set_qrExpired false (set_showWechatQR false
      (state_of (clearQRTimers
         (state_of (clearErrors (set_currentMode mode s)))))).
Proof.
  intros Hm Hq. rewrite clearQRTimers_eq.
  destruct s as [? ? ? ? ? q ? ? ? t i ? ? ? ? ? ? ? ? ? ? ? ? tm nx].
  cbn in Hq. subst q.
  destruct Hm as [-> | ->]; destruct t, i; reflexivity.
Qed.

Lemma switchMode_stay mode s :
  mode = ModeLogin ∨ showWechatQR s = false ->
  state_of (switchMode mode s) =
    state_of (clearErrors (set_currentMode mode s)).
Proof.
  intros H.
  destruct s as [? ? ? ? ? q ? ? ? t i ? ? ? ? ? ? ? ? ? ? ? ? tm nx].
  cbn in H. destruct H as [-> | ->]; [reflexivity|].
  destruct mode; reflexivity.
Qed.

Lemma refreshQRCode_eq s :
  state_of (refreshQRCode s) =
  state_of (handleWechatLogin
    (set_qrScanned false (set_qrExpired false (state_of (clearQRTimers s))))).
Proof.
  rewrite clearQRTimers_eq.
  destruct s as [? ? ? ? ? q ? ? ? t i ? ? ? ? ? ? ? ? ? ? ? ? tm nx].
  destruct t, i; reflexivity.
Qed.

(** After clearQRTimers on a state whose QR timers are owned by the
    handles, no QR timer is left. *)
Lemma clearQRTimers_no_qr_timer s :
  qr_owned s -> no_qr_timer (state_of (clearQRTimers s)).
Proof.
  intros Hown id t. rewrite clearQRTimers_eq. cbn. intros Hid.
  apply cancel_lookup_Some in Hid as [Hid Hi].
  apply cancel_lookup_Some in Hid as [Hid Ht].
  destruct (Hown id t Hid) as [Hc He].
  destruct (timer_cb t); [done | by destruct Hi; auto | by destruct Ht; auto].
Qed.

Lemma no_qr_timer_owned s : no_qr_timer s -> qr_owned s.
Proof.
  intros H id t Hid. rewrite (H id t Hid). split; discriminate.
Qed.

(** handleWechatLogin adds one poll interval and one expiry timeout and
    stores their ids. *)
Lemma handleWechatLogin_timers s :
  let s' := state_of (handleWechatLogin s) in
  timers s' =
    <[(nextTimer s + 1)%positive :=
        Build_Timer CbQRExpire QR_EXPIRE_TIME false]>
      (<[nextTimer s := poll_timer]> (timers s)) ∧
  qrCheckInterval s' = Some (nextTimer s) ∧
  qrExpireTimer s' = Some (nextTimer s + 1)%positive ∧
  nextTimer s' = (nextTimer s + 1 + 1)%positive.
Proof. repeat split. Qed.

Lemma handleWechatLogin_owned s :
  no_qr_timer s -> qr_owned (state_of (handleWechatLogin s)).
Proof.
  intros Hno id t.
  destruct (handleWechatLogin_timers s) as (-> & -> & -> & _).
  rewrite lookup_insert. case_decide as H1.
  { intros [= <-]. subst id. cbn. split; [discriminate | done]. }
  rewrite lookup_insert. case_decide as H2.
  { intros [= <-]. subst id. cbn. split; [done | discriminate]. }
  intros Hid. rewrite (Hno id t Hid). split; discriminate.
Qed.

Lemma refreshQRCode_owned s :
  qr_owned s -> qr_owned (state_of (refreshQRCode s)).
Proof.
  intros Hown. rewrite refreshQRCode_eq.
  apply handleWechatLogin_owned.
  exact (clearQRTimers_no_qr_timer s Hown).
Qed.

(** *** What each event does to the timers and to [isSendingCode] *)

Lemma same_timers_owned s s' : same_timers s s' -> qr_owned s -> qr_owned s'.
Proof. intros (Ht & _ & Hc & He). unfold qr_owned. by rewrite Ht, Hc, He. Qed.

Lemma same_timers_fresh s s' :
  same_timers s s' -> ids_fresh s -> ids_fresh s'.
Proof. intros (Ht & Hn & _ & _). unfold ids_fresh. by rewrite Ht, Hn. Qed.

Lemma same_timers_poll s s' :
  same_timers s s' -> poll_live s -> poll_live s'.
Proof. intros (Ht & _ & Hc & _). unfold poll_live. by rewrite Ht, Hc. Qed.

Lemma form_handlers_frame h s :
  h = handleLogin ∨ h = handlePhoneCodeLogin ∨ h = handleRegister ∨
  h = handleForgotPassword ->
  same_timers s (state_of (h s)) ∧
  isSendingCode (state_of (h s)) = isSendingCode s ∧
  result_of (h s) ≠ Suspended AwaitSendCode.
Proof.
  intros [-> | [-> | [-> | ->]]]; act_run; by repeat split.
Qed.

Lemma sendVerificationCode_frame phone type s :
  same_timers s (state_of (sendVerificationCode phone type s)) ∧
  ((result_of (sendVerificationCode phone type s) = Finished Returned ∧
    state_of (sendVerificationCode phone type s) = s) ∨
   (result_of (sendVerificationCode phone type s) = Suspended AwaitSendCode ∧
    isSendingCode (state_of (sendVerificationCode phone type s)) = true)).
Proof. act_run; split; (by repeat split) || auto. Qed.

Lemma clearErrors_frame s :
  same_timers s (state_of (clearErrors s)) ∧
  isSendingCode (state_of (clearErrors s)) = isSendingCode s.
Proof. by repeat split. Qed.

(** switchMode either leaves the timers alone or clears the QR timers. *)
Lemma switchMode_timers mode s :
  let s' := state_of (switchMode mode s) in
  isSendingCode s' = isSendingCode s ∧
  (same_timers s s' ∨
   same_timers (state_of (clearQRTimers s)) s').
Proof.
  intros s'. subst s'.
  destruct (decide ((mode = ModeRegister ∨ mode = ModeForgot) ∧
                    showWechatQR s = true)) as [[Hm Hq] | Hn].
  - rewrite (switchMode_away _ _ Hm Hq), !clearQRTimers_eq. cbn.
    split; [done|]. right. by repeat split.
  - rewrite switchMode_stay.
    + split; [done|]. left. by repeat split.
    + destruct mode; auto; destruct (showWechatQR s); auto;
        destruct Hn; auto.
Qed.

Lemma other_resume_frame p o s :
  p ≠ AwaitSendCode ->
  same_timers s (state_of (resume p o s)) ∧
  isSendingCode (state_of (resume p o s)) = isSendingCode s.
Proof.
  intros Hp. destruct p; try done; destruct o as [r | e];
    act_run; by repeat split.
Qed.

Lemma send_resume_effect o s :
  let s' := state_of (sendVerificationCode_resume o s) in
  isSendingCode s' = false ∧
  qrCheckInterval s' = qrCheckInterval s ∧
  qrExpireTimer s' = qrExpireTimer s ∧
  ((timers s' = timers s ∧ nextTimer s' = nextTimer s) ∨
   (timers s' = <[nextTimer s := countdown_timer]> (timers s) ∧
    nextTimer s' = (nextTimer s + 1)%positive)).
Proof.
  destruct o as [r | e]; act_run; repeat split; auto.
Qed.

(** *** Arithmetic of JavaScript numbers *)

Local Open Scope Z_scope.

Lemma round_double_small z : Z.abs z ≤ 2 ^ 53 -> round_double z = z.
Proof.
  intros H. unfold round_double. cbv zeta.
  destruct (Z.abs z <=? 2 ^ 53) eqn:Hle; [done|].
  apply Z.leb_gt in Hle. lia.
Qed.

(** The parts of a number beyond 2^53. *)
Lemma big_parts a :
  2 ^ 53 < a ->
  let sh := Z.log2 a - 52 in
  1 ≤ sh ∧ 0 < 2 ^ sh ∧ 2 ^ 52 ≤ a / 2 ^ sh ∧
  a = a / 2 ^ sh * 2 ^ sh + a mod 2 ^ sh ∧ 0 ≤ a mod 2 ^ sh < 2 ^ sh.
Proof.
  intros Ha. cbv zeta.
  assert (53 ≤ Z.log2 a) as Hl.
  { change 53 with (Z.log2 (2 ^ 53)). apply Z.log2_le_mono. lia. }
  assert (0 < 2 ^ (Z.log2 a - 52)) as Hp by (apply Z.pow_pos_nonneg; lia).
  split; [lia|]. split; [done|].
  destruct (Z.log2_spec a) as [Hlo _]; [lia|].
  split.
  - apply Z.div_le_lower_bound; [done|].
    rewrite Z.mul_comm, <- Z.pow_add_r by lia.
    replace (52 + (Z.log2 a - 52)) with (Z.log2 a) by lia. done.
  - split; [|by apply Z.mod_pos_bound].
    rewrite Z.mul_comm. by apply Z.div_mod, Z.neq_sym, Z.lt_neq.
Qed.

Lemma round_double_sign z :
  (0 ≤ z -> 0 ≤ round_double z) ∧ (z < 0 -> round_double z < 0).
Proof.
  unfold round_double. cbv zeta.
  destruct (Z.abs z <=? 2 ^ 53) eqn:Hle; [lia|].
  apply Z.leb_gt in Hle.
  destruct (big_parts (Z.abs z) Hle) as (_ & Hp & Hq & _).
  cbv zeta in Hp, Hq.
  set (q := Z.abs z / 2 ^ (Z.log2 (Z.abs z) - 52)) in *.
  set (p := 2 ^ (Z.log2 (Z.abs z) - 52)) in *.
  match goal with
  | |- context [if ?c then _ else _] => set (q' := if c then q + 1 else q)
  end.
  assert (2 ^ 52 ≤ q') as Hq'.
  { subst q'. match goal with |- context [if ?c then _ else _] =>
      destruct c end; lia. }
  assert (0 < q' * p) by nia.
  split; intros Hz.
  - rewrite Z.sgn_pos by lia. lia.
  - rewrite Z.sgn_neg by lia. lia.
Qed.

Lemma js_dec_le n : js_dec n ≤ n.
Proof. unfold js_dec. lia. Qed.

Lemma js_dec_nonneg n : 1 ≤ n -> 0 ≤ js_dec n.
Proof.
  intros Hn. unfold js_dec.
  pose proof (proj1 (round_double_sign (n - 1))). lia.
Qed.

Lemma js_dec_neg n : n ≤ 0 -> js_dec n < 0.
Proof.
  intros Hn. unfold js_dec.
  pose proof (proj2 (round_double_sign (n - 1))). lia.
Qed.

Lemma js_dec_exact n : - 2 ^ 53 < n ≤ 2 ^ 53 -> js_dec n = n - 1.
Proof.
  intros Hn. unfold js_dec. rewrite round_double_small by lia. lia.
Qed.

Lemma js_dec_sticks : js_dec (2 ^ 54) = 2 ^ 54.
Proof. vm_compute. reflexivity. Qed.

Lemma round_double_big z :
  2 ^ 53 < Z.abs z ->
  let sh := Z.log2 (Z.abs z) - 52 in
  ∃ q', (q' = Z.abs z / 2 ^ sh ∨ q' = Z.abs z / 2 ^ sh + 1) ∧
        round_double z = Z.sgn z * (q' * 2 ^ sh).
Proof.
  intros Hz. cbv zeta. unfold round_double. cbv zeta.
  destruct (Z.abs z <=? 2 ^ 53) eqn:Hle; [apply Z.leb_le in Hle; lia|].
  match goal with
  | |- context [if ?c then _ else _] => destruct c
  end; eexists; (split; [|reflexivity]); auto.
Qed.

(** Beyond 2^53 a double is a multiple of the weight of its last bit. *)
Lemma js_number_multiple n :
  js_number n -> 2 ^ 53 < Z.abs n ->
  Z.abs n mod 2 ^ (Z.log2 (Z.abs n) - 52) = 0.
Proof.
  intros Hn Hbig. destruct (round_double_big n Hbig) as (q' & _ & Hr).
  cbv zeta in Hr. unfold js_number in Hn. rewrite Hr in Hn.
  destruct (big_parts _ Hbig) as (_ & Hp & _). cbv zeta in Hp.
  assert (Z.abs n = q' * 2 ^ (Z.log2 (Z.abs n) - 52)) as Heq.
  { destruct (Z.abs_spec n) as [[? Ha] | [? Ha]].
    - rewrite Z.sgn_pos in Hn by lia. lia.
    - rewrite Z.sgn_neg in Hn by lia. lia. }
  rewrite Heq at 1. apply Z.mod_mul. lia.
Qed.

(** Subtracting 1 from a double never gives more than the double. *)
Lemma round_double_pred_le n : js_number n -> round_double (n - 1) ≤ n.
Proof.
  intros Hn.
  destruct (Z_le_gt_dec (Z.abs (n - 1)) (2 ^ 53)) as [Hs | Hbig].
  { rewrite round_double_small by done. lia. }
  apply Z.gt_lt in Hbig.
  destruct (round_double_big _ Hbig) as (q' & Hq' & ->). cbv zeta in Hq'.
  destruct (big_parts _ Hbig) as (Hsh & Hp & _ & Hdm & Hr).
  cbv zeta in Hsh, Hp, Hdm, Hr.
  set (a := Z.abs (n - 1)) in *.
  set (sh := Z.log2 a - 52) in *.
  set (q := a / 2 ^ sh) in *. set (r := a mod 2 ^ sh) in *.
  destruct (Z_lt_le_dec (n - 1) 0) as [Hneg | Hpos].
  - (* n - 1 < - 2^53 *)
    rewrite Z.sgn_neg by done.
    assert (a = 1 - n) as Ha by (subst a; lia).
    destruct Hq' as [-> | ->]; [|nia].
    destruct (Z.eq_dec r 0) as [Hr0 | Hr0]; [nia|].
    assert (r = 1) as Hr1; [|nia].
    destruct (Z.eq_dec a (2 ^ 53 + 1)) as [Ha1 | Ha1].
    { subst r sh. rewrite Ha1. reflexivity. }
    assert (2 ^ 53 < Z.abs n) as Hnbig by lia.
    pose proof (js_number_multiple n Hn Hnbig) as Hmul.
    assert (Z.abs n = a - 1) as Hn1 by lia.
    assert (Z.log2 (a - 1) = Z.log2 a) as Hlog.
    { destruct (Z.log2_spec a) as [Hlo Hhi]; [lia|].
      apply Z.log2_unique; [apply Z.log2_nonneg|]. split; [|lia].
      assert (2 ^ Z.log2 a ≠ a); [|lia].
      intros Hpow. apply Hr0. subst r sh. rewrite <- Hpow at 1.
      replace (Z.log2 a) with (52 + (Z.log2 a - 52)) at 1 by lia.
      rewrite Z.pow_add_r by lia. apply Z.mod_mul. lia. }
    rewrite Hn1, Hlog in Hmul. fold sh in Hmul.
    assert (a - 1 = q * 2 ^ sh + (r - 1)) as Hdm' by lia.
    rewrite Hdm', Z.add_comm, Z.mod_add in Hmul by lia.
    rewrite Z.mod_small in Hmul by lia. lia.
  - (* 2^53 < n - 1 *)
    rewrite Z.sgn_pos by lia.
    assert (a = n - 1) as Ha by (subst a; lia).
    assert (2 ^ 53 < Z.abs n) as Hnbig by lia.
    pose proof (js_number_multiple n Hn Hnbig) as Hmul.
    rewrite (Z.abs_eq n) in Hmul by lia.
    assert (sh ≤ Z.log2 n - 52) as Hle.
    { subst sh. assert (Z.log2 a ≤ Z.log2 n); [|lia].
      apply Z.log2_le_mono. lia. }
    assert (n mod 2 ^ sh = 0) as Hmul'.
    { apply Z.mod_divide in Hmul; [|lia]. apply Z.mod_divide; [lia|].
      destruct Hmul as [k Hk]. exists (k * 2 ^ (Z.log2 n - 52 - sh)).
      rewrite <- Z.mul_assoc, <- Z.pow_add_r by lia.
      replace (Z.log2 n - 52 - sh + sh) with (Z.log2 n - 52) by lia. done. }
    apply Z.mod_divide in Hmul'; [|lia]. destruct Hmul' as [m Hm].
    assert (q < m) by nia.
    destruct Hq' as [-> | ->]; nia.
Qed.

(** On a JavaScript number [js_dec] is the rounded difference itself. *)
Lemma js_dec_js_number n : js_number n -> js_dec n = round_double (n - 1).
Proof.
  intros Hn. unfold js_dec. pose proof (round_double_pred_le n Hn). lia.
Qed.

Local Open Scope string_scope.

Lemma countdown_tick_eq id s :
  state_of (countdown_tick id s) =
  let s1 := set_codeCountdown (js_dec (codeCountdown s)) s in
  if (js_dec (codeCountdown s) <=? 0)%Z
  then set_timers (delete id (timers s)) s1 else s1.
Proof. act_run; reflexivity. Qed.

Lemma fire_effect s id t :
  timers s !! id = Some t ->
  let s' := state_of (fire id s) in
  isSendingCode s' = isSendingCode s ∧
  nextTimer s' = nextTimer s ∧
  qrExpireTimer s' = qrExpireTimer s ∧
  (∀ j t', timers s' !! j = Some t' -> timers s !! j = Some t') ∧
  match timer_cb t with
  | CbCountdown =>
      qrCheckInterval s' = qrCheckInterval s ∧
      ∀ j, j ≠ id -> timers s' !! j = timers s !! j
  | CbQRCheck =>
      qrCheckInterval s' = qrCheckInterval s ∧
      timers s' = if timer_repeats t then timers s
                  else delete id (timers s)
  | CbQRExpire =>
      qrCheckInterval s' = None ∧
      ∀ j, qrCheckInterval s = Some j -> timers s' !! j = None
  end.
Proof.
  intros Hid s'. subst s'. rewrite (fire_live _ _ _ Hid).
  destruct (timer_cb t); cbn [run_callback].
  - (* countdown *)
    rewrite countdown_tick_eq.
    destruct (timer_repeats t); cbn;
      destruct (js_dec (codeCountdown s) <=? 0)%Z; cbn;
      repeat split; try done; intros j;
      rewrite ?lookup_delete; repeat case_decide; try done;
      intros; by rewrite ?lookup_delete_ne.
  - (* poll *)
    destruct (timer_repeats t) eqn:Hr; cbn; repeat split;
      try done; intros j t'; rewrite lookup_delete; by case_decide.
  - (* expiry *)
    rewrite qr_expire_eq. cbn.
    destruct (timer_repeats t); cbn; repeat split; try done.
    + intros j t' Hj. by apply cancel_lookup_Some in Hj as [Hj _].
    + intros j Hj. by apply cancel_lookup_self.
    + intros j t' Hj. apply cancel_lookup_Some in Hj as [Hj _].
      rewrite lookup_delete in Hj. by case_decide.
    + intros j Hj. by apply cancel_lookup_self.
Qed.

Lemma same_timers_refl s : same_timers s s.
Proof. by repeat split. Qed.

Lemma edit_frame f v s :
  same_timers s (edit f v s) ∧ isSendingCode (edit f v s) = isSendingCode s.
Proof. destruct f; by repeat split. Qed.

Lemma toggle_frame t s :
  same_timers s (toggle t s) ∧ isSendingCode (toggle t s) = isSendingCode s.
Proof. destruct t; by repeat split. Qed.

Lemma remove_one_count p q l l' :
  remove_one p l = Some l' ->
  count_occ Pending_eq_dec l q =
    if decide (p = q) then S (count_occ Pending_eq_dec l' q)
    else count_occ Pending_eq_dec l' q.
Proof.
  revert l'. induction l as [|x l IH]; intros l'; [done|].
  cbn [remove_one]. destruct (decide (p = x)) as [<- | Hpx].
  - intros [= <-]. cbn [count_occ].
    destruct (Pending_eq_dec p q); by case_decide.
  - destruct (remove_one p l) as [r|] eqn:Hr; [|done].
    intros [= <-]. specialize (IH r eq_refl). cbn [count_occ].
    rewrite IH.
    destruct (Pending_eq_dec x q); case_decide; subst; done.
Qed.

Lemma step_shape e w w' : step e w = Some w' -> shape e w w'.
Proof.
  destruct e; unfold step, sync, launch; cbn.
  - (* edit *)
    destruct (mounted w); [|done]. intros [= <-].
    destruct (edit_frame f v (page w)). by apply shape_frame.
  - destruct (mounted w); [|done]. intros [= <-].
    apply shape_frame; by repeat split.
  - destruct (mounted w); [|done]. intros [= <-].
    destruct (toggle_frame t (page w)). by apply shape_frame.
  - (* resend *)
    destruct (resendDisabled button (page w)) eqn:Hd; [done|].
    destruct (mounted w); [|done]. intros [= <-].
    destruct (sendVerificationCode_frame
                (resendPhone button (page w)) button (page w))
      as [Hs [[Hr Hst] | [Hr Hst]]].
    + apply shape_frame; cbn; [done| by rewrite Hst |].
      unfold sends_inflight. cbn. by rewrite Hr.
    + apply shape_send; cbn; [done|done|done|].
      unfold sends_inflight. cbn. rewrite Hr. cbn.
      by destruct (Pending_eq_dec AwaitSendCode AwaitSendCode).
  - (* phone login *)
    destruct (mounted w); [|done]. intros [= <-].
    destruct (form_handlers_frame handlePhoneCodeLogin (page w))
      as (? & ? & Hr); [auto|].
    apply shape_frame; cbn; [done|done|].
    unfold sends_inflight. cbn.
    destruct (result_of _) as [c|p]; [done|]. cbn.
    destruct (Pending_eq_dec p AwaitSendCode); [by subst|done].
  - destruct (mounted w); [|done]. intros [= <-].
    destruct (form_handlers_frame handleRegister (page w))
      as (? & ? & Hr); [auto|].
    apply shape_frame; cbn; [done|done|].
    unfold sends_inflight. cbn.
    destruct (result_of _) as [c|p]; [done|]. cbn.
    destruct (Pending_eq_dec p AwaitSendCode); [by subst|done].
  - destruct (mounted w); [|done]. intros [= <-].
    destruct (form_handlers_frame handleForgotPassword (page w))
      as (? & ? & Hr); [auto|].
    apply shape_frame; cbn; [done|done|].
    unfold sends_inflight. cbn.
    destruct (result_of _) as [c|p]; [done|]. cbn.
    destruct (Pending_eq_dec p AwaitSendCode); [by subst|done].
  - (* switchMode *)
    destruct (mounted w); [|done]. intros [= <-].
    destruct (switchMode_timers m (page w)) as [? [?|?]];
      [by apply shape_frame | by apply shape_clear].
  - (* refresh *)
    destruct (mounted w); [|done]. intros [= <-]. by apply shape_refresh.
  - (* handleLogin *)
    destruct (mounted w); [|done]. intros [= <-].
    destruct (form_handlers_frame handleLogin (page w))
      as (? & ? & Hr); [auto|].
    apply shape_frame; cbn; [done|done|].
    unfold sends_inflight. cbn.
    destruct (result_of _) as [c|p]; [done|]. cbn.
    destruct (Pending_eq_dec p AwaitSendCode); [by subst|done].
  - (* handleWechatLogin *)
    destruct (mounted w); [|done]. intros [= <-]. by apply shape_start.
  - (* a promise settles *)
    destruct (remove_one p (inflight w)) as [rest|] eqn:Hrm; [|done].
    cbn. intros [= <-].
    pose proof (remove_one_count _ AwaitSendCode _ _ Hrm) as Hc.
    destruct (decide (p = AwaitSendCode)) as [-> | Hp].
    + apply (shape_sent _ _ _ o); [|done].
      unfold sends_inflight. cbn. by rewrite Hc.
    + destruct (other_resume_frame p o (page w) Hp).
      apply shape_frame; cbn; [done|done|].
      unfold sends_inflight. cbn. by rewrite Hc.
  - (* a timer fires *)
    destruct (timers (page w) !! id) as [t|] eqn:Hid; [|done].
    intros [= <-]. by apply (shape_fire _ _ _ id t).
  - (* unmount *)
    destruct (mounted w); [|done]. intros [= <-].
    apply shape_clear; cbn; [apply same_timers_refl| |done].
    unfold onBeforeUnmount. by rewrite clearQRTimers_eq.
Qed.

(** *** Invariants of the machine *)

Lemma step_keeps_owned e w w' :
  e ≠ EvWechatLogin -> qr_owned (page w) -> step e w = Some w' ->
  qr_owned (page w').
Proof.
  intros He Hown Hstep.
  destruct (step_shape _ _ _ Hstep)
    as [Hf _ _ | _ Hf _ _ | o _ Hp | Hf _ _ | Hp _ | Hs _ _ | id t Hid Hp _].
  - by apply (same_timers_owned _ _ Hf).
  - by apply (same_timers_owned _ _ Hf).
  - (* the countdown interval is not a QR timer *)
    destruct (send_resume_effect o (page w)) as (_ & Hc & Hx & Ht).
    rewrite <- Hp in Hc, Hx, Ht.
    destruct Ht as [[Ht Hn] | [Ht _]].
    + apply (same_timers_owned (page w)); [|done].
      unfold same_timers. by rewrite Ht, Hn, Hc, Hx.
    + intros id t. rewrite Ht, Hc, Hx, lookup_insert.
      case_decide; [by intros [= <-]; split | apply Hown].
  - apply (same_timers_owned _ _ Hf), no_qr_timer_owned.
    by apply clearQRTimers_no_qr_timer.
  - rewrite Hp. by apply refreshQRCode_owned.
  - done.
  - destruct (fire_effect _ _ _ Hid) as (_ & _ & Hx & Hsub & Hcb).
    rewrite <- Hp in Hx, Hsub, Hcb.
    intros j t' Hj. pose proof (Hsub _ _ Hj) as Hj'.
    destruct (Hown j t' Hj') as [Hc He']. rewrite Hx. split; [|done].
    intros Hq. specialize (Hc Hq).
    destruct (timer_cb t); destruct Hcb as [Hcb1 Hcb2];
      [by rewrite Hcb1 | by rewrite Hcb1 |].
    rewrite (Hcb2 _ Hc) in Hj. done.
Qed.

Lemma run_keeps_owned evs w w' :
  EvWechatLogin ∉ evs -> qr_owned (page w) -> run evs w = Some w' ->
  qr_owned (page w').
Proof.
  revert w. induction evs as [|e evs IH]; intros w Hnot Hown; cbn.
  - by intros [= <-].
  - destruct (step e w) as [w1|] eqn:Hstep; [|done]. cbn.
    apply IH.
    + intros Hin. apply Hnot. by right.
    + apply (step_keeps_owned e w); [|done|done].
      intros ->. apply Hnot. by left.
Qed.

Lemma clearQRTimers_wf s :
  ids_fresh s ->
  ids_fresh (state_of (clearQRTimers s)) ∧
  poll_live (state_of (clearQRTimers s)).
Proof.
  intros Hf. rewrite clearQRTimers_eq. cbn. split; [|done].
  intros id t Hid. cbn in *.
  apply cancel_lookup_Some in Hid as [Hid _].
  apply cancel_lookup_Some in Hid as [Hid _].
  by apply (Hf id t).
Qed.

Lemma handleWechatLogin_wf s :
  ids_fresh s ->
  ids_fresh (state_of (handleWechatLogin s)) ∧
  poll_live (state_of (handleWechatLogin s)).
Proof.
  intros Hf.
  destruct (handleWechatLogin_timers s) as (Ht & Hc & _ & Hn).
  split.
  - intros id t. rewrite Ht, Hn, !lookup_insert.
    repeat case_decide; subst; try lia.
    intros Hid. specialize (Hf id t Hid). cbn in Hf. lia.
  - intros id. rewrite Ht, Hc. intros [= <-].
    rewrite lookup_insert_ne by lia. apply lookup_insert_eq.
Qed.

Lemma step_keeps_wf e w w' :
  ids_fresh (page w) ∧ poll_live (page w) -> step e w = Some w' ->
  ids_fresh (page w') ∧ poll_live (page w').
Proof.
  intros [Hfr Hpl] Hstep.
  destruct (step_shape _ _ _ Hstep)
    as [Hf _ _ | _ Hf _ _ | o _ Hp | Hf _ _ | Hp _ | Hs Hp _ | id t Hid Hp _].
  - split; [by apply (same_timers_fresh _ _ Hf)
           | by apply (same_timers_poll _ _ Hf)].
  - split; [by apply (same_timers_fresh _ _ Hf)
           | by apply (same_timers_poll _ _ Hf)].
  - destruct (send_resume_effect o (page w)) as (_ & Hc & Hx & Ht).
    rewrite <- Hp in Hc, Hx, Ht.
    destruct Ht as [[Ht Hn] | [Ht Hn]].
    + split; [unfold ids_fresh; by rewrite Ht, Hn
             | unfold poll_live; by rewrite Ht, Hc].
    + split.
      * intros id t. rewrite Ht, Hn, lookup_insert.
        case_decide; subst; [lia|].
        intros Hid. specialize (Hfr id t Hid). cbn in Hfr. lia.
      * intros id. rewrite Ht, Hc. intros Hid.
        specialize (Hpl id Hid). specialize (Hfr id _ Hpl). cbn in Hfr.
        rewrite lookup_insert_ne by lia. done.
  - destruct (clearQRTimers_wf _ Hfr).
    split; [by apply (same_timers_fresh _ _ Hf)
           | by apply (same_timers_poll _ _ Hf)].
  - rewrite Hp, refreshQRCode_eq. apply handleWechatLogin_wf.
    destruct (clearQRTimers_wf _ Hfr) as [Hc _].
    revert Hc. apply same_timers_fresh. by repeat split.
  - rewrite Hp. by apply handleWechatLogin_wf.
  - destruct (fire_effect _ _ _ Hid) as (_ & Hn & _ & Hsub & Hcb).
    rewrite <- Hp in Hn, Hsub, Hcb. split.
    + intros j t' Hj. rewrite Hn. apply (Hfr j t'). by apply Hsub.
    + intros j Hj.
      destruct (timer_cb t) eqn:Hk; destruct Hcb as [Hc Ht].
      * rewrite Hc in Hj. specialize (Hpl j Hj).
        rewrite Ht; [done|]. intros ->. rewrite Hid in Hpl.
        injection Hpl as ->. done.
      * rewrite Hc in Hj. specialize (Hpl j Hj). rewrite Ht.
        destruct (timer_repeats t) eqn:Hr; [done|].
        rewrite lookup_delete_ne; [done|]. intros ->.
        rewrite Hid in Hpl. injection Hpl as ->. done.
      * by rewrite Hc in Hj.
Qed.

Lemma step_keeps_tracked e w w' :
  sending_tracked w -> step e w = Some w' -> sending_tracked w'.
Proof.
  unfold sending_tracked. intros Htr Hstep.
  destruct (step_shape _ _ _ Hstep)
    as [_ Hs Hn | Hd _ Hs Hn | o Hn Hp | _ Hs Hn | Hp Hn | _ Hp Hn
       | id t Hid Hp Hn].
  - by rewrite Hs, Hn.
  - rewrite Hs, Hn, Htr. unfold resendDisabled in Hd.
    by destruct (isSendingCode (page w)).
  - destruct (send_resume_effect o (page w)) as (Hs & _).
    rewrite <- Hp in Hs. rewrite Hs. rewrite Hn in Htr.
    by destruct (isSendingCode (page w)); simplify_eq.
  - by rewrite Hs, Hn.
  - rewrite Hn, Hp, refreshQRCode_eq, clearQRTimers_eq. exact Htr.
  - rewrite Hn, Hp. exact Htr.
  - destruct (fire_effect _ _ _ Hid) as (Hs & _).
    rewrite <- Hp in Hs. by rewrite Hs, Hn.
Qed.

Lemma reachable_inv w :
  reachable w ->
  ids_fresh (page w) ∧ poll_live (page w) ∧ sending_tracked w.
Proof.
  induction 1 as [|e w w' _ (Hf & Hp & Ht) Hstep].
  - by repeat split.
  - destruct (step_keeps_wf e w w') as [? ?]; [done|done|].
    repeat split; [done|done|]. by apply (step_keeps_tracked e w).
Qed.

Lemma qr_owned_single s : qr_owned s -> single_qr_timers s.
Proof.
  intros Hown i j t t' Hi Hj Heq Hne.
  destruct (Hown i t Hi) as [Hc He], (Hown j t' Hj) as [Hc' He'].
  rewrite <- Heq in Hc', He'.
  destruct (timer_cb t); [done | |].
  - specialize (Hc eq_refl). specialize (Hc' eq_refl). congruence.
  - specialize (He eq_refl). specialize (He' eq_refl). congruence.
Qed.

Lemma run_reachable evs w w' :
  reachable w -> run evs w = Some w' -> reachable w'.
Proof.
  revert w. induction evs as [|e evs IH]; intros w Hw; cbn.
  - by intros [= <-].
  - destruct (step e w) as [w1|] eqn:Hstep; [|done]. cbn.
    apply IH. by apply (reachable_step e w).
Qed.

Lemma Object_assign_keeps_value r src :
  src !! "value" = None -> ref_value (Object_assign r src) = ref_value r.
Proof. intros H. unfold Object_assign. cbn. by rewrite H. Qed.

(** A handler that returns without suspending has made no network call. *)
Lemma returned_without_network_call h s :
  h = handleLogin ∨ h = handlePhoneCodeLogin ∨ h = handleRegister ∨
  h = handleForgotPassword ->
  result_of (h s) = Finished Returned ->
  existsb is_network_call (calls_of (h s)) = false ∧
  isLoading (state_of (h s)) = isLoading s.
Proof.
  intros [-> | [-> | [-> | ->]]]; act_run; by intros.
Qed.

(** A submit whose validator says no stops right there: the only call it
    has made is the one to the validator, and the messages have been
    assigned onto the ref object. *)
Lemma invalid_submit_stops s :
  (isValid (validateLoginForm (loginPayload (loginForm s))) = false ->
   handleLogin s =
     (set_loginErrors
        (Object_assign (loginErrors s)
           (errors (validateLoginForm (loginPayload (loginForm s))))) s,
      [Call_validateLoginForm (loginPayload (loginForm s))],
      Finished Returned)) ∧
  (isValid (validateLoginForm (phoneLoginPayload (phoneLoginForm s)))
     = false ->
   handlePhoneCodeLogin s =
     (set_loginErrors
        (Object_assign (loginErrors s)
           (errors (validateLoginForm
                      (phoneLoginPayload (phoneLoginForm s))))) s,
      [Call_validateLoginForm (phoneLoginPayload (phoneLoginForm s))],
      Finished Returned)) ∧
  (register_password (registerForm s) =
     register_confirmPassword (registerForm s) ->
   isValid (validateRegisterForm (registerPayload (registerForm s)))
     = false ->
   handleRegister s =
     (set_registerErrors
        (Object_assign (registerErrors s)
           (errors (validateRegisterForm
                      (registerPayload (registerForm s))))) s,
      [Call_validateRegisterForm (registerPayload (registerForm s))],
      Finished Returned)) ∧
  (forgot_newPassword (forgotForm s) =
     forgot_confirmPassword (forgotForm s) ->
   isValid (validateResetPasswordForm (resetPayload (forgotForm s)))
     = false ->
   handleForgotPassword s =
     (set_forgotErrors
        (Object_assign (forgotErrors s)
           (errors (validateResetPasswordForm
                      (resetPayload (forgotForm s))))) s,
      [Call_validateResetPasswordForm (resetPayload (forgotForm s))],
      Finished Returned)).
Proof.
  repeat split.
  - intros H. act_unfold. cbn. by rewrite H.
  - intros H. act_unfold. cbn. by rewrite H.
  - intros Hpw H. act_unfold. cbn.
    rewrite Hpw, String.eqb_refl. cbn. by rewrite H.
  - intros Hpw H. act_unfold. cbn.
    rewrite Hpw, String.eqb_refl. cbn. by rewrite H.
Qed.

(** ** The properties *)

(** C2.  Every start of the QR flow goes through refreshQRCode, the only
    caller of handleWechatLogin (line 250), and refreshQRCode clears the
    two stored timers before handleWechatLogin creates new ones.  Started
    on a state whose live QR timers are the ones in the handles, it passes
    through a state with no QR timer and handles that are null, and ends
    with exactly the new poll interval and the new expiry timeout, both
    stored in the handles.  So at no point do two poll intervals or two
    expiry timeouts exist together: not after any further events from
    there, and not in any run from the initial page, handleWechatLogin
    being entered through refreshQRCode only. *)
Theorem refreshQRCode_clears_before_start s :
  qr_owned s ->
  let cleared := state_of (clearQRTimers s) in
  let s' := state_of (refreshQRCode s) in
  s' = state_of (handleWechatLogin
         (set_qrScanned false (set_qrExpired false cleared))) ∧
  no_qr_timer cleared ∧
  qrExpireTimer cleared = None ∧
  qrCheckInterval cleared = None ∧
  live (qrCheckInterval s') CbQRCheck s' ∧
  live (qrExpireTimer s') CbQRExpire s' ∧
  single_qr_timers s' ∧
  (∀ evs inflight0 w',
     EvWechatLogin ∉ evs ->
     run evs {| page := s'; inflight := inflight0; mounted := true |}
       = Some w' ->
     single_qr_timers (page w')) ∧
  (∀ evs w',
     EvWechatLogin ∉ evs -> run evs init_world = Some w' ->
     qr_owned (page w') ∧ single_qr_timers (page w')).
Proof.
  intros Hown cleared s'.
  assert (Hown' : qr_owned s') by by apply refreshQRCode_owned.
  split; [apply refreshQRCode_eq|].
  split; [by apply clearQRTimers_no_qr_timer|].
  subst cleared. rewrite clearQRTimers_eq. cbn.
  split; [done|]. split; [done|].
  subst s'. rewrite refreshQRCode_eq in *.
  set (s0 := set_qrScanned false _) in *.
  destruct (handleWechatLogin_timers s0) as (Ht & Hc & He & _).
  split; [|split; [|split]].
  - exists (nextTimer s0), poll_timer. split; [done|]. split; [|done].
    rewrite Ht, lookup_insert_ne by lia. apply lookup_insert_eq.
  - exists (nextTimer s0 + 1)%positive,
      (Build_Timer CbQRExpire QR_EXPIRE_TIME false).
    split; [exact He|]. split; [|reflexivity].
    rewrite Ht. apply lookup_insert_eq.
  - by apply qr_owned_single.
  - split.
    + intros evs inflight0 w' Hnot Hrun. apply qr_owned_single.
      exact (run_keeps_owned evs (Build_World _ inflight0 true) w'
               Hnot Hown' Hrun).
    + intros evs w' Hnot Hrun.
      assert (qr_owned (page w')) as Hw'.
      { apply (run_keeps_owned evs init_world w' Hnot); [|exact Hrun].
        apply (bool_decide_unpack (qr_owned _)). vm_compute. exact I. }
      split; [exact Hw' | by apply qr_owned_single].
Qed.

(** The two handles, whatever control invokes the handlers: in every
    state [step] reaches the poll handle qrCheckInterval is null or names
    the live poll interval, and clearQRTimers leaves both handles null and
    the timers they named cancelled.  The expiry callback does not assign
    qrExpireTimer. *)
Lemma poll_handle_live_expiry_handle_kept w :
  reachable w ->
  live_or_null (qrCheckInterval (page w)) CbQRCheck (page w) ∧
  (∀ s, let s' := state_of (clearQRTimers s) in
     qrExpireTimer s' = None ∧ qrCheckInterval s' = None ∧
     ∀ id, qrExpireTimer s = Some id ∨ qrCheckInterval s = Some id ->
           timers s' !! id = None) ∧
  (∀ s id t,
     timers s !! id = Some t -> timer_cb t = CbQRExpire ->
     timer_repeats t = false ->
     let s' := state_of (fire id s) in
     qrExpireTimer s' = qrExpireTimer s ∧ timers s' !! id = None).
Proof.
  intros Hw. destruct (reachable_inv w Hw) as (_ & Hpl & _).
  split; [|split].
  - intros id Hid. exists poll_timer. split; [by apply Hpl|done].
  - intros s s'. subst s'. rewrite clearQRTimers_eq. cbn.
    split; [done|]. split; [done|].
    intros id [H | H].
    + apply cancel_lookup_None, cancel_lookup_self, H.
    + apply cancel_lookup_self, H.
  - intros s id t Hid Hcb Hrep s'. subst s'.
    rewrite (fire_live _ _ _ Hid), Hcb, Hrep. cbn [run_callback].
    rewrite qr_expire_eq. cbn. split; [done|].
    apply cancel_lookup_None, lookup_delete_eq.
Qed.

(** C4, amended.  An exception thrown by the awaited sendCode call is
    caught inside sendVerificationCode, logged with console.error and
    answered with the generic toast, and the handler returns normally
    (with isSendingCode reset); handleWechatLogin awaits no call and
    always returns normally.  handleLogin, handlePhoneCodeLogin,
    handleRegister and handleForgotPassword have try/finally without a
    catch: on an exception they reset isLoading, log nothing, show no
    toast, and the exception leaves the handler. *)
Theorem rejection_handling s e :
  sendVerificationCode_resume (Rejected e) s =
    (set_isSendingCode false s,
     [console_error "Send code error:" e; Toast_error "发送验证码失败"],
     Returned) ∧
  caught_and_reported (sendVerificationCode_resume (Rejected e) s) ∧
  result_of (handleWechatLogin s) = Returned ∧
  handleLogin_resume (Rejected e) s = (set_isLoading false s, [], Thrown e) ∧
  handlePhoneCodeLogin_resume (Rejected e) s =
    (set_isLoading false s, [], Thrown e) ∧
  handleRegister_resume (Rejected e) s =
    (set_isLoading false s, [], Thrown e) ∧
  handleForgotPassword_resume (Rejected e) s =
    (set_isLoading false s, [], Thrown e).
Proof.
  repeat split.
  - exists "Send code error:", e. cbn. apply list_elem_of_here.
  - exists "发送验证码失败". cbn. apply list_elem_of_further, list_elem_of_here.
Qed.

(** C5.  QR_EXPIRE_TIME is 300000 ms, five minutes, and handleWechatLogin
    registers the expiry callback as a one-shot timeout with that delay.
    When the expiry timeout fires, qrExpired becomes true, qrScanned
    false, the interval named by qrCheckInterval is cancelled and the
    handle set to null; when the live QR timers were the ones in the
    handles, no poll interval is left, so no poll tick follows. *)
Theorem qr_expiry_callback s id t :
  timers s !! id = Some t -> timer_cb t = CbQRExpire ->
  let s' := state_of (fire id s) in
  QR_EXPIRE_TIME = 300000%Z ∧
  (∀ s0, ∃ id0,
     qrExpireTimer (state_of (handleWechatLogin s0)) = Some id0 ∧
     timers (state_of (handleWechatLogin s0)) !! id0 =
       Some (Build_Timer CbQRExpire QR_EXPIRE_TIME false)) ∧
  qrExpired s' = true ∧
  qrScanned s' = false ∧
  qrCheckInterval s' = None ∧
  (∀ i, qrCheckInterval s = Some i -> timers s' !! i = None) ∧
  (qr_owned s ->
   ∀ i t', timers s' !! i = Some t' -> timer_cb t' ≠ CbQRCheck).
Proof.
  intros Hid Hcb s'. split; [reflexivity|]. split.
  { intros s0. destruct (handleWechatLogin_timers s0) as (Ht & _ & He & _).
    eexists. split; [exact He|]. rewrite Ht. apply lookup_insert_eq. }
  destruct (fire_effect _ _ _ Hid) as (_ & _ & _ & Hsub & Heff).
  rewrite Hcb in Heff. destruct Heff as [Hnull Hgone].
  subst s'. rewrite (fire_live _ _ _ Hid), Hcb in *. cbn [run_callback] in *.
  rewrite qr_expire_eq in *.
  split; [by destruct (timer_repeats t)|].
  split; [by destruct (timer_repeats t)|].
  split; [done|]. split; [done|].
  intros Hown i t' Hi Hq.
  destruct (Hown i t' (Hsub _ _ Hi)) as [Hc _].
  rewrite (Hgone i (Hc Hq)) in Hi. done.
Qed.

(** C6.  When the component is unmounted while a QR timer is active, the
    unmount hook cancels the timers named by the two handles and sets
    both handles to null; when the live QR timers were the ones in the
    handles, no QR callback is scheduled any more, so neither can run
    after teardown. *)
Theorem unmount_clears_qr_timers s :
  live (qrExpireTimer s) CbQRExpire s ∨
  live (qrCheckInterval s) CbQRCheck s ->
  let s' := state_of (onBeforeUnmount s) in
  qrExpireTimer s' = None ∧
  qrCheckInterval s' = None ∧
  (∀ id, qrExpireTimer s = Some id ∨ qrCheckInterval s = Some id ->
         timers s' !! id = None) ∧
  (qr_owned s -> no_qr_timer s').
Proof.
  intros _ s'. subst s'. unfold onBeforeUnmount.
  split; [by rewrite clearQRTimers_eq|].
  split; [by rewrite clearQRTimers_eq|].
  split; [|apply clearQRTimers_no_qr_timer].
  rewrite clearQRTimers_eq. cbn. intros id [H | H].
  - apply cancel_lookup_None, cancel_lookup_self, H.
  - apply cancel_lookup_self, H.
Qed.

(** C7.  switchMode to 'register' or 'forgot' from a state where the QR
    panel is showing sets the mode, hides the panel, resets the expired
    flag, sets both timer handles to null and cancels the timers they
    named. *)
Theorem switchMode_hides_qr mode s :
  mode = ModeRegister ∨ mode = ModeForgot ->
  showWechatQR s = true ->
  let s' := state_of (switchMode mode s) in
  currentMode s' = mode ∧
  showWechatQR s' = false ∧
  qrExpired s' = false ∧
  qrExpireTimer s' = None ∧
  qrCheckInterval s' = None ∧
  (∀ id, qrExpireTimer s = Some id ∨ qrCheckInterval s = Some id ->
         timers s' !! id = None).
Proof.
  intros Hm Hq s'. subst s'.
  rewrite (switchMode_away _ _ Hm Hq), clearQRTimers_eq. cbn.
  repeat split.
  intros id [H | H].
  - apply cancel_lookup_None, cancel_lookup_self, H.
  - apply cancel_lookup_self, H.
Qed.

(** C8.  In every reachable state each send-code button is disabled
    exactly when a send is in flight or the countdown is above zero, and
    a send is in flight exactly when isSendingCode is true.  The guard is
    the button's binding only: sendVerificationCode, given a phone number
    that passes its two checks, sets isSendingCode and calls sendCode
    whatever isSendingCode and codeCountdown were. *)
Theorem resend_disabled_iff w button :
  reachable w ->
  (resendDisabled button (page w) = true <->
   AwaitSendCode ∈ inflight w ∨ (0 < codeCountdown (page w))%Z) ∧
  (isSendingCode (page w) = true <-> AwaitSendCode ∈ inflight w) ∧
  (∀ s phone type,
     phone ≠ "" -> phoneRegex_test phone = true ->
     sendVerificationCode phone type s =
       (set_isSendingCode true s, [Call_sendCode phone type],
        Suspended AwaitSendCode)).
Proof.
  intros Hw. destruct (reachable_inv w Hw) as (_ & _ & Htr).
  assert (Hin : isSendingCode (page w) = true <->
                AwaitSendCode ∈ inflight w).
  { rewrite list_elem_of_In, (count_occ_In Pending_eq_dec).
    unfold sending_tracked, sends_inflight in Htr. rewrite Htr.
    destruct (isSendingCode (page w)); split; (done || lia). }
  split; [|split; [done|]].
  - unfold resendDisabled. rewrite orb_true_iff, Z.ltb_lt. by rewrite Hin.
  - intros s phone type Hne Hre. act_unfold.
    apply String.eqb_neq in Hne. rewrite Hne, Hre. reflexivity.
Qed.

(** C10.  When the password and its confirmation differ, handleRegister
    (and likewise handleForgotPassword) shows the error toast and
    returns: the validator and the auth store are not called, and the
    state (error maps, isLoading and everything else) is the one
    it started from. *)
Theorem password_mismatch_returns_early s1 s2 :
  register_password (registerForm s1) ≠
    register_confirmPassword (registerForm s1) ->
  forgot_newPassword (forgotForm s2) ≠
    forgot_confirmPassword (forgotForm s2) ->
  handleRegister s1 =
    (s1, [Toast_error "两次密码输入不一致"], Finished Returned) ∧
  handleForgotPassword s2 =
    (s2, [Toast_error "两次密码输入不一致"], Finished Returned) ∧
  existsb is_validator_call (calls_of (handleRegister s1)) = false ∧
  existsb is_network_call (calls_of (handleRegister s1)) = false ∧
  existsb is_validator_call (calls_of (handleForgotPassword s2)) = false ∧
  existsb is_network_call (calls_of (handleForgotPassword s2)) = false.
Proof.
  intros H1 H2. apply String.eqb_neq in H1, H2.
  assert (Hr : handleRegister s1 =
                 (s1, [Toast_error "两次密码输入不一致"], Finished Returned))
    by (act_unfold; cbn; by rewrite H1).
  assert (Hf : handleForgotPassword s2 =
                 (s2, [Toast_error "两次密码输入不一致"], Finished Returned))
    by (act_unfold; cbn; by rewrite H2).
  rewrite Hr, Hf. by repeat split.
Qed.

(** * Further properties of the handlers *)

(** ** sendVerificationCode: the two checks before the request *)

(** X1.  A phone number that is empty or fails the configured pattern never
    reaches sendCode: sendVerificationCode shows the matching error toast
    (the "enter a phone number" one for the empty string, the "enter a
    valid phone number" one otherwise) and returns; no request is made and
    the state, [isSendingCode] included, is untouched. *)
Theorem sendVerificationCode_rejects_bad_phone phone type s :
  phone = "" ∨ phoneRegex_test phone = false ->
  sendVerificationCode phone type s =
    (s,
     [Toast_error (if String.eqb phone "" then "请输入手机号"
                   else "请输入有效的手机号")],
     Finished Returned) ∧
  existsb is_network_call (calls_of (sendVerificationCode phone type s))
    = false.
Proof.
  intros H.
  assert (Heq : sendVerificationCode phone type s =
    (s,
     [Toast_error (if String.eqb phone "" then "请输入手机号"
                   else "请输入有效的手机号")],
     Finished Returned)).
  { unfold sendVerificationCode.
    destruct (String.eqb phone "") eqn:He; [reflexivity|].
    destruct H as [-> | Hre]; [discriminate He|].
    rewrite Hre. reflexivity. }
  rewrite Heq. by split.
Qed.

(** ** The submit handlers: when the store is called *)

(** X2.  Each submit handler calls the auth store exactly when its checks
    pass (for register and reset: the two passwords are equal, and the
    validator accepts the payload built from the form); it turns
    [isLoading] on in exactly that case, and the payload the store receives
    is the one the validator saw. *)
Theorem store_called_iff_checks_pass s :
  let ok_login := isValid (validateLoginForm (loginPayload (loginForm s))) in
  let ok_phone :=
    isValid (validateLoginForm (phoneLoginPayload (phoneLoginForm s))) in
  let ok_register :=
    String.eqb (register_password (registerForm s))
      (register_confirmPassword (registerForm s)) &&
    isValid (validateRegisterForm (registerPayload (registerForm s))) in
  let ok_reset :=
    String.eqb (forgot_newPassword (forgotForm s))
      (forgot_confirmPassword (forgotForm s)) &&
    isValid (validateResetPasswordForm (resetPayload (forgotForm s))) in
  List.filter is_network_call (calls_of (handleLogin s)) =
    (if ok_login
     then [Call_authStore_login (loginPayload (loginForm s))] else []) ∧
  isLoading (state_of (handleLogin s)) = (ok_login || isLoading s) ∧
  List.filter is_network_call
    (calls_of (handlePhoneCodeLogin s)) =
    (if ok_phone
     then [Call_authStore_login (phoneLoginPayload (phoneLoginForm s))]
     else []) ∧
  isLoading (state_of (handlePhoneCodeLogin s)) = (ok_phone || isLoading s) ∧
  List.filter is_network_call (calls_of (handleRegister s)) =
    (if ok_register
     then [Call_authStore_register (registerPayload (registerForm s))]
     else []) ∧
  isLoading (state_of (handleRegister s)) = (ok_register || isLoading s) ∧
  List.filter is_network_call
    (calls_of (handleForgotPassword s)) =
    (if ok_reset
     then [Call_authStore_resetPassword (resetPayload (forgotForm s))]
     else []) ∧
  isLoading (state_of (handleForgotPassword s)) = (ok_reset || isLoading s).
Proof.
  cbv zeta. repeat apply conj; act_unfold; cbn;
    repeat match goal with
    | |- context [String.eqb ?a ?b] => destruct (String.eqb a b); cbn
    | |- context [isValid ?v] => destruct (isValid v); cbn
    end; reflexivity.
Qed.

(** ** switchMode and clearErrors *)

(** What the template displays for a key of each of the three error refs. *)
Definition shown_errors (s : St) (key : string)
  : option string * option string * option string :=
  (shown (loginErrors s) key, shown (registerErrors s) key,
   shown (forgotErrors s) key).

Lemma shown_reset_value r key : shown (reset_value r) key = None.
Proof. unfold shown, reset_value. apply lookup_empty. Qed.

Lemma switchMode_error_refs mode s :
  loginErrors (state_of (switchMode mode s)) = reset_value (loginErrors s) ∧
  registerErrors (state_of (switchMode mode s)) =
    reset_value (registerErrors s) ∧
  forgotErrors (state_of (switchMode mode s)) = reset_value (forgotErrors s).
Proof.
  destruct s as [? ? ? ? ? q ? ? ? t i ? ? ? ? ? ? ? ? ? ? ? ? tm nx].
  destruct mode, q, t, i; repeat apply conj; reflexivity.
Qed.

Lemma switchMode_mode_and_panel mode s :
  currentMode (state_of (switchMode mode s)) = mode ∧
  showWechatQR (state_of (switchMode mode s)) =
    (if mode_eqb mode ModeLogin then showWechatQR s else false).
Proof.
  destruct s as [? ? ? ? ? q ? ? ? t i ? ? ? ? ? ? ? ? ? ? ? ? tm nx].
  destruct mode, q, t, i; split; reflexivity.
Qed.

(** On a state that already is in the mode and whose error maps are empty,
    setting the mode and clearing the errors changes nothing. *)
Lemma clearErrors_fixpoint mode s r1 r2 r3 :
  currentMode s = mode ->
  loginErrors s = reset_value r1 -> registerErrors s = reset_value r2 ->
  forgotErrors s = reset_value r3 ->
  state_of (clearErrors (set_currentMode mode s)) = s.
Proof.
  destruct s. cbn. intros <- -> -> ->. reflexivity.
Qed.

Lemma switchMode_idempotent mode s :
  state_of (switchMode mode (state_of (switchMode mode s))) =
  state_of (switchMode mode s).
Proof.
  destruct (switchMode_mode_and_panel mode s) as [Hm Hq].
  destruct (switchMode_error_refs mode s) as (Hl & Hr & Hf).
  rewrite switchMode_stay.
  - by apply (clearErrors_fixpoint mode _ _ _ _ Hm Hl Hr Hf).
  - rewrite Hq. destruct mode; auto.
Qed.

(** X3.  After switchMode the requested mode is the current one and none of
    the three error maps displays a message, whatever they held; own
    properties of the ref objects are not touched.  Switching to the same
    mode a second time changes nothing. *)
Theorem switchMode_clears_displayed_errors mode s key :
  let s' := state_of (switchMode mode s) in
  currentMode s' = mode ∧
  shown_errors s' key = (None, None, None) ∧
  ref_props (loginErrors s') = ref_props (loginErrors s) ∧
  ref_props (registerErrors s') = ref_props (registerErrors s) ∧
  ref_props (forgotErrors s') = ref_props (forgotErrors s) ∧
  state_of (switchMode mode s') = s'.
Proof.
  cbv zeta.
  destruct (switchMode_error_refs mode s) as (Hl & Hr & Hf).
  split; [apply switchMode_mode_and_panel|].
  split; [unfold shown_errors; rewrite Hl, Hr, Hf;
          by rewrite !shown_reset_value|].
  rewrite Hl, Hr, Hf.
  repeat apply conj; try reflexivity. apply switchMode_idempotent.
Qed.

(** X4.  Leaving the login mode and coming back does not bring the QR panel
    back: after switchMode to 'register' or 'forgot' followed by switchMode
    to 'login', the QR column is rendered again but [showWechatQR] is false
    (the template shows its static placeholder), neither overlay shows, and
    switchMode to 'login' itself leaves every QR variable and the timer
    table as they were. *)
Theorem leaving_and_returning_hides_qr mode s :
  mode = ModeRegister ∨ mode = ModeForgot ->
  let away := state_of (switchMode mode s) in
  let back := state_of (switchMode ModeLogin away) in
  currentMode back = ModeLogin ∧
  qrColumnRendered back = true ∧
  showWechatQR back = false ∧
  scannedOverlay back = false ∧
  expiredOverlay back = false ∧
  wechatQRUrl back = wechatQRUrl away ∧
  qrExpired back = qrExpired away ∧
  qrScanned back = qrScanned away ∧
  qrExpireTimer back = qrExpireTimer away ∧
  qrCheckInterval back = qrCheckInterval away ∧
  timers back = timers away.
Proof.
  intros Hm. cbv zeta.
  destruct (switchMode_mode_and_panel mode s) as [_ Hq].
  assert (Hhid : showWechatQR (state_of (switchMode mode s)) = false)
    by (rewrite Hq; by destruct Hm as [-> | ->]).
  rewrite (switchMode_stay ModeLogin) by auto.
  set (away := state_of (switchMode mode s)) in *.
  assert (Hshow : showWechatQR
                    (state_of (clearErrors (set_currentMode ModeLogin away)))
                  = false) by exact Hhid.
  unfold scannedOverlay, expiredOverlay, qrColumnRendered.
  rewrite Hshow. by repeat split.
Qed.

(** ** handleForgotPassword after the store has answered *)

(** X5.  When resetPassword resolves with [success], the continuation of
    handleForgotPassword shows the success toast, switches to the login
    mode (so no error map displays anything), and turns [isLoading] off;
    the QR variables and the timers are not touched. *)
Theorem reset_success_returns_to_login s response key :
  success response = true ->
  let r := handleForgotPassword_resume (Resolved response) s in
  result_of r = Returned ∧
  calls_of r = [Toast_success "密码重置成功，请重新登录"] ∧
  currentMode (state_of r) = ModeLogin ∧
  isLoading (state_of r) = false ∧
  shown_errors (state_of r) key = (None, None, None) ∧
  showWechatQR (state_of r) = showWechatQR s ∧
  qrExpired (state_of r) = qrExpired s ∧
  qrExpireTimer (state_of r) = qrExpireTimer s ∧
  qrCheckInterval (state_of r) = qrCheckInterval s ∧
  timers (state_of r) = timers s.
Proof.
  intros Hs. cbv zeta.
  assert (Hst : state_of (handleForgotPassword_resume (Resolved response) s)
                = set_isLoading false (state_of (switchMode ModeLogin s))).
  { unfold handleForgotPassword_resume. rewrite Hs. reflexivity. }
  destruct (switchMode_error_refs ModeLogin s) as (Hl & Hr & Hf).
  split; [unfold handleForgotPassword_resume; by rewrite Hs|].
  split; [unfold handleForgotPassword_resume; by rewrite Hs|].
  rewrite Hst. split; [reflexivity|]. split; [reflexivity|].
  split.
  { unfold shown_errors. cbn [loginErrors registerErrors forgotErrors
                              set_isLoading].
    rewrite Hl, Hr, Hf. by rewrite !shown_reset_value. }
  repeat apply conj; reflexivity.
Qed.

(** X6.  When the API answers without success, the error toast is never
    empty: sendVerificationCode and handleForgotPassword show the server's
    message when it is a non-empty string and their own fallback text when
    the message is missing or empty.  The mode is kept, nothing else is
    called, and the busy flag of the handler is turned off. *)
Theorem failure_toast_falls_back s response :
  success response = false ->
  let text fallback :=
    match msg response with
    | Some "" | None => fallback
    | Some m => m
    end in
  sendVerificationCode_resume (Resolved response) s =
    (set_isSendingCode false s, [Toast_error (text "发送失败")], Returned) ∧
  handleForgotPassword_resume (Resolved response) s =
    (set_isLoading false s, [Toast_error (text "重置失败")], Returned) ∧
  text "发送失败" ≠ "" ∧ text "重置失败" ≠ "".
Proof.
  intros Hs. cbv zeta.
  unfold sendVerificationCode_resume, handleForgotPassword_resume, or_default.
  rewrite Hs.
  destruct (msg response) as [[|a m]|]; repeat apply conj;
    try reflexivity; discriminate.
Qed.

(** ** clearQRTimers *)

(** X7.  clearQRTimers is idempotent, makes no call, and cancels nothing
    but the two timers its handles name: every other timer, the resend
    countdown in particular, stays as it was, and so do the flags of the QR
    panel. *)
Theorem clearQRTimers_idempotent_and_local s :
  let s' := state_of (clearQRTimers s) in
  state_of (clearQRTimers s') = s' ∧
  calls_of (clearQRTimers s) = [] ∧
  (∀ id, qrExpireTimer s ≠ Some id -> qrCheckInterval s ≠ Some id ->
         timers s' !! id = timers s !! id) ∧
  codeCountdown s' = codeCountdown s ∧
  showWechatQR s' = showWechatQR s ∧
  qrExpired s' = qrExpired s ∧
  qrScanned s' = qrScanned s ∧
  nextTimer s' = nextTimer s.
Proof.
  cbv zeta. rewrite !clearQRTimers_eq. cbn.
  repeat apply conj; try reflexivity.
  intros id He Hc. unfold cancel.
  destruct (qrCheckInterval s) as [c|], (qrExpireTimer s) as [x|];
    rewrite ?lookup_delete_ne; congruence.
Qed.

(** ** The login button *)

(** X8.  handlePhoneCodeLogin, the handler the template binds to the login
    button in both tabs, works on the phone/code form only: the selected
    tab and whatever the account/password form holds have no influence on
    what it calls or on how it ends, and the one payload it hands to the
    validator and to the store carries the phone and the code, with no
    password, no e-mail and type 'phone'. *)
Theorem login_button_submits_phone_form_only s f t :
  let payload := phoneLoginPayload (phoneLoginForm s) in
  calls_of (handlePhoneCodeLogin (set_loginType t (set_loginForm f s))) =
    calls_of (handlePhoneCodeLogin s) ∧
  result_of (handlePhoneCodeLogin (set_loginType t (set_loginForm f s))) =
    result_of (handlePhoneCodeLogin s) ∧
  (∀ e, e ∈ calls_of (handlePhoneCodeLogin s) ->
        e = Call_validateLoginForm payload ∨
        e = Call_authStore_login payload) ∧
  lp_phone payload = Some (phoneLogin_phone (phoneLoginForm s)) ∧
  lp_code payload = Some (phoneLogin_code (phoneLoginForm s)) ∧
  lp_password payload = None ∧
  lp_email payload = None ∧
  lp_type payload = KindPhone.
Proof.
  cbv zeta. repeat apply conj; try reflexivity.
  - act_unfold. cbn. by destruct (isValid _).
  - act_unfold. cbn. by destruct (isValid _).
  - intros e. act_unfold. cbn. destruct (isValid _); cbn;
      rewrite ?elem_of_cons, elem_of_nil; intuition.
Qed.

(** ** Rejected submits and what the template displays *)

Lemma shown_Object_assign r src key :
  src !! "value" = None -> shown (Object_assign r src) key = shown r key.
Proof.
  intros H. unfold shown. by rewrite Object_assign_keeps_value.
Qed.

(** X9.  As long as the validators never use the key "value" in their
    error objects, no submit handler changes what the template displays
    for any key of any of the three error maps: a rejected submit leaves
    the displayed messages exactly as they were. *)
Theorem submit_keeps_displayed_errors s key :
  (∀ p, errors (validateLoginForm p) !! "value" = None) ->
  (∀ p, errors (validateRegisterForm p) !! "value" = None) ->
  (∀ p, errors (validateResetPasswordForm p) !! "value" = None) ->
  shown_errors (state_of (handleLogin s)) key = shown_errors s key ∧
  shown_errors (state_of (handlePhoneCodeLogin s)) key = shown_errors s key ∧
  shown_errors (state_of (handleRegister s)) key = shown_errors s key ∧
  shown_errors (state_of (handleForgotPassword s)) key = shown_errors s key.
Proof.
  intros HL HR HX. unfold shown_errors.
  repeat apply conj; act_unfold; cbn [fst snd];
    repeat match goal with
    | |- context [String.eqb ?a ?b] => destruct (String.eqb a b); cbn [negb fst snd]
    | |- context [isValid ?v] => destruct (isValid v); cbn [negb fst snd]
    end;
    cbn [loginErrors registerErrors forgotErrors set_loginErrors
         set_registerErrors set_forgotErrors set_isLoading];
    rewrite ?shown_Object_assign by auto; reflexivity.
Qed.

(** ** The QR overlays *)

Lemma refreshQRCode_silent s :
  calls_of (refreshQRCode s) = [] ∧ result_of (refreshQRCode s) = Returned.
Proof.
  destruct s as [? ? ? ? ? q ? ? ? t i ? ? ? ? ? ? ? ? ? ? ? ? tm nx].
  destruct t, i; split; reflexivity.
Qed.

(** X10.  When the expiry timeout fires, the info toast is shown, the
    "expired" overlay (with the refresh button) shows exactly if the QR
    panel is visible, and the "scanned" overlay does not show.  A refresh
    from there makes the panel visible with the placeholder image and
    neither overlay, and makes no call. *)
Theorem overlays_after_expiry_and_refresh s id t :
  timers s !! id = Some t -> timer_cb t = CbQRExpire ->
  let expired := state_of (fire id s) in
  let refreshed := state_of (refreshQRCode expired) in
  calls_of (fire id s) = [Toast_info "二维码已过期，请点击刷新"] ∧
  expiredOverlay expired = showWechatQR s ∧
  scannedOverlay expired = false ∧
  showWechatQR refreshed = true ∧
  wechatQRUrl refreshed = placeholderQR ∧
  expiredOverlay refreshed = false ∧
  scannedOverlay refreshed = false ∧
  calls_of (refreshQRCode expired) = [] ∧
  result_of (refreshQRCode expired) = Returned.
Proof.
  intros Hid Hcb. cbv zeta.
  assert (Hcalls : calls_of (fire id s) =
                   [Toast_info "二维码已过期，请点击刷新"]).
  { rewrite (fire_live _ _ _ Hid), Hcb. cbn [run_callback].
    generalize (if timer_repeats t then s
                else set_timers (delete id (timers s)) s).
    intros s0. unfold qr_expire. act_unfold. cbn.
    by destruct (qrCheckInterval s0). }
  assert (Hst : state_of (fire id s) =
    set_qrCheckInterval None
      (set_timers
         (cancel (qrCheckInterval s)
            (if timer_repeats t then timers s else delete id (timers s)))
         (set_qrScanned false (set_qrExpired true s)))).
  { rewrite (fire_live _ _ _ Hid), Hcb. cbn [run_callback].
    rewrite qr_expire_eq. by destruct (timer_repeats t). }
  split; [exact Hcalls|].
  rewrite Hst.
  split; [unfold expiredOverlay; cbn; apply andb_true_r|].
  split; [unfold scannedOverlay; cbn; by rewrite andb_false_r|].
  set (s1 := set_qrCheckInterval None _).
  destruct (refreshQRCode_silent s1) as [Hc Hr]. rewrite Hc, Hr.
  rewrite refreshQRCode_eq.
  repeat apply conj; reflexivity.
Qed.

(** ** The resend countdown *)

(** The browser fires the timer [id] [k] times in a row. *)
Fixpoint fire_times (k : nat) (id : TimerId) (s : St) : St :=
  match k with
  | O => s
  | S k' => fire_times k' id (state_of (fire id s))
  end.

Lemma countdown_fire s id :
  timers s !! id = Some countdown_timer ->
  state_of (fire id s) =
    let s1 := set_codeCountdown (js_dec (codeCountdown s)) s in
    if (js_dec (codeCountdown s) <=? 0)%Z
    then set_timers (delete id (timers s)) s1 else s1.
Proof.
  intros Hid. rewrite (fire_live _ _ _ Hid). cbn [run_callback countdown_timer
    timer_cb timer_repeats]. apply countdown_tick_eq.
Qed.

(** A countdown interval that starts at [c], at most 2^53, and has ticked
    [k] times. *)
Lemma countdown_after_ticks k : ∀ s id c,
  timers s !! id = Some countdown_timer ->
  codeCountdown s = c -> (Z.of_nat k ≤ c)%Z -> (c ≤ 2 ^ 53)%Z ->
  let sk := fire_times k id s in
  codeCountdown sk = (c - Z.of_nat k)%Z ∧
  isSendingCode sk = isSendingCode s ∧
  ((Z.of_nat k < c)%Z -> timers sk !! id = Some countdown_timer) ∧
  ((Z.of_nat k = c)%Z -> (1 ≤ c)%Z -> timers sk !! id = None).
Proof.
  induction k as [|k IH]; intros s id c Hid Hc Hk Hsafe; cbn [fire_times].
  - cbv zeta. split; [lia|]. split; [reflexivity|].
    split; [intros _; exact Hid | intros; lia].
  - rewrite (countdown_fire _ _ Hid). cbv zeta. rewrite Hc.
    rewrite js_dec_exact by lia.
    destruct (c - 1 <=? 0)%Z eqn:Hle.
    + apply Z.leb_le in Hle. assert (k = O) as -> by lia. cbn [fire_times].
      cbn. split; [lia|]. split; [reflexivity|].
      split; [intros; lia|]. intros _ _. apply lookup_delete_eq.
    + apply Z.leb_gt in Hle.
      destruct (IH (set_codeCountdown (c - 1) s) id (c - 1)%Z)
        as (H1 & H2 & H3 & H4); [exact Hid | reflexivity | lia | lia |].
      split; [rewrite H1; lia|]. split; [exact H2|].
      split; [intros ?; apply H3; lia | intros ? ?; apply H4; lia].
Qed.

(** X11.  After sendCode has answered with success and a resend interval of
    n seconds, 1 <= n <= 2^53 (the whole numbers on which decrementing a
    JavaScript number is exact), the countdown reads n, then n - 1 after
    one tick of its interval, and so on: after k <= n ticks it reads n - k;
    the send-code buttons stay disabled for every k < n, and at the n-th
    tick the countdown is 0, the interval has cancelled itself and the
    buttons are enabled again.  (Past 2^53 a tick need not move the
    countdown: see [js_dec_sticks].) *)
Theorem countdown_runs_down s response k button :
  success response = true ->
  (1 ≤ sendInterval)%Z -> (sendInterval ≤ 2 ^ 53)%Z ->
  (Z.of_nat k ≤ sendInterval)%Z ->
  let started := state_of (sendVerificationCode_resume (Resolved response) s) in
  let sk := fire_times k (nextTimer s) started in
  codeCountdown started = sendInterval ∧
  codeCountdown sk = (sendInterval - Z.of_nat k)%Z ∧
  ((Z.of_nat k < sendInterval)%Z ->
     resendDisabled button sk = true ∧
     timers sk !! nextTimer s = Some countdown_timer) ∧
  (Z.of_nat k = sendInterval ->
     resendDisabled button sk = false ∧ timers sk !! nextTimer s = None).
Proof.
  intros Hs Hn Hsafe Hk. cbv zeta.
  assert (Hst : state_of (sendVerificationCode_resume (Resolved response) s) =
    set_isSendingCode false
      (set_nextTimer (nextTimer s + 1)%positive
         (set_timers (<[nextTimer s := countdown_timer]> (timers s))
            (set_codeCountdown sendInterval s)))).
  { unfold sendVerificationCode_resume. rewrite Hs. reflexivity. }
  rewrite Hst. set (s0 := set_isSendingCode false _).
  destruct (countdown_after_ticks k s0 (nextTimer s) sendInterval)
    as (H1 & H2 & H3 & H4);
    [apply lookup_insert_eq | reflexivity | exact Hk | exact Hsafe |].
  split; [reflexivity|]. split; [exact H1|]. split.
  - intros Hlt. split; [|by apply H3].
    unfold resendDisabled. rewrite H1, H2. cbn.
    apply Z.ltb_lt. lia.
  - intros Heq. split; [|by apply H4].
    unfold resendDisabled. rewrite H1, H2. cbn.
    apply Z.ltb_ge. lia.
Qed.

(** X12.  With a resend interval that is zero or negative, a successful
    send never disables the buttons through the countdown, and the first
    tick of the interval drives the countdown below zero (to the double
    nearest to the interval minus one) before the interval cancels
    itself. *)
Theorem countdown_with_nonpositive_interval s response button :
  success response = true -> (sendInterval ≤ 0)%Z ->
  let started := state_of (sendVerificationCode_resume (Resolved response) s) in
  let ticked := state_of (fire (nextTimer s) started) in
  resendDisabled button started = false ∧
  timers started !! nextTimer s = Some countdown_timer ∧
  codeCountdown ticked = js_dec sendInterval ∧
  (codeCountdown ticked < 0)%Z ∧
  timers ticked !! nextTimer s = None.
Proof.
  intros Hs Hn. cbv zeta.
  assert (Hst : state_of (sendVerificationCode_resume (Resolved response) s) =
    set_isSendingCode false
      (set_nextTimer (nextTimer s + 1)%positive
         (set_timers (<[nextTimer s := countdown_timer]> (timers s))
            (set_codeCountdown sendInterval s)))).
  { unfold sendVerificationCode_resume. rewrite Hs. reflexivity. }
  rewrite Hst. set (s0 := set_isSendingCode false _).
  assert (Hid : timers s0 !! nextTimer s = Some countdown_timer)
    by apply lookup_insert_eq.
  rewrite (countdown_fire _ _ Hid). cbv zeta.
  change (codeCountdown s0) with sendInterval.
  pose proof (js_dec_neg sendInterval Hn) as Hneg.
  assert (Hle : (js_dec sendInterval <=? 0)%Z = true)
    by (apply Z.leb_le; lia).
  rewrite Hle.
  split; [unfold resendDisabled; cbn; apply Z.ltb_ge; lia|].
  split; [exact Hid|]. split; [reflexivity|]. split; [cbn; lia|].
  apply lookup_delete_eq.
Qed.

(** ** Every step of the page, case by case *)

(** The pending awaits after a handler has been started. *)
Definition pending_after (r : Status) (l : list Pending) : list Pending :=
  match r with Suspended p => p :: l | Finished _ => l end.

(** To prove a relation between the page before and after any step it is
    enough to prove it for each thing the page can do. *)
Lemma step_elim (P : St -> list Pending -> St -> list Pending -> Prop) :
  (∀ s l f v, P s l (edit f v s) l) ->
  (∀ s l t, P s l (set_loginType t s) l) ->
  (∀ s l t, P s l (toggle t s) l) ->
  (∀ s l b, resendDisabled b s = false ->
     P s l (state_of (sendVerificationCode (resendPhone b s) b s))
       (pending_after
          (result_of (sendVerificationCode (resendPhone b s) b s)) l)) ->
  (∀ s l h,
     h = handleLogin ∨ h = handlePhoneCodeLogin ∨ h = handleRegister ∨
     h = handleForgotPassword ->
     P s l (state_of (h s)) (pending_after (result_of (h s)) l)) ->
  (∀ s l m, P s l (state_of (switchMode m s)) l) ->
  (∀ s l, P s l (state_of (refreshQRCode s)) l) ->
  (∀ s l, P s l (state_of (handleWechatLogin s)) l) ->
  (∀ s l p o rest, remove_one p l = Some rest ->
     P s l (state_of (resume p o s)) rest) ->
  (∀ s l id t, timers s !! id = Some t -> P s l (state_of (fire id s)) l) ->
  (∀ s l, P s l (state_of (onBeforeUnmount s)) l) ->
  ∀ e w w', step e w = Some w' ->
    P (page w) (inflight w) (page w') (inflight w').
Proof.
  intros Hedit Htype Htoggle Hresend Hform Hmode Hrefresh Hstart Hsettle
    Hfire Hunmount e w w'.
  destruct e; unfold step, sync, launch; cbn.
  - destruct (mounted w); [|done]. intros [= <-]. apply Hedit.
  - destruct (mounted w); [|done]. intros [= <-]. apply Htype.
  - destruct (mounted w); [|done]. intros [= <-]. apply Htoggle.
  - destruct (resendDisabled button (page w)) eqn:Hd; [done|].
    destruct (mounted w); [|done]. intros [= <-]. by apply Hresend.
  - destruct (mounted w); [|done]. intros [= <-].
    apply (Hform _ _ handlePhoneCodeLogin). auto.
  - destruct (mounted w); [|done]. intros [= <-].
    apply (Hform _ _ handleRegister). auto.
  - destruct (mounted w); [|done]. intros [= <-].
    apply (Hform _ _ handleForgotPassword). auto.
  - destruct (mounted w); [|done]. intros [= <-]. apply Hmode.
  - destruct (mounted w); [|done]. intros [= <-]. apply Hrefresh.
  - destruct (mounted w); [|done]. intros [= <-].
    apply (Hform _ _ handleLogin). auto.
  - destruct (mounted w); [|done]. intros [= <-]. apply Hstart.
  - destruct (remove_one p (inflight w)) as [rest|] eqn:Hrm; [|done].
    cbn. intros [= <-]. by apply Hsettle.
  - destruct (timers (page w) !! id) as [t|] eqn:Hid; [|done].
    intros [= <-]. by apply (Hfire _ _ id t).
  - destruct (mounted w); [|done]. intros [= <-]. apply Hunmount.
Qed.

(** *** [isLoading] and the pending submits *)

(** A submit (an await of the auth store) is pending. *)
Definition submit_pending (l : list Pending) : Prop :=
  ∃ p, p ∈ l ∧ p ≠ AwaitSendCode.

Lemma remove_one_keeps q p l rest :
  remove_one p l = Some rest -> q ∈ l -> q ≠ p -> q ∈ rest.
Proof.
  revert rest. induction l as [|x l IH]; intros rest; [done|].
  cbn [remove_one]. destruct (decide (p = x)) as [<- | Hpx].
  - intros [= <-]. rewrite elem_of_cons. intros [-> | ?]; done.
  - destruct (remove_one p l) as [r|] eqn:Hr; [|done].
    intros [= <-]. rewrite !elem_of_cons. intros [-> | Hin] Hq; [by left|].
    right. by apply IH.
Qed.

Lemma loading_step e w w' :
  (isLoading (page w) = true -> submit_pending (inflight w)) ->
  step e w = Some w' ->
  isLoading (page w') = true -> submit_pending (inflight w').
Proof.
  intros IH Hstep. revert IH.
  apply (step_elim (fun s l s' l' =>
    (isLoading s = true -> submit_pending l) ->
    isLoading s' = true -> submit_pending l')) with (e := e);
    [..|exact Hstep]; clear.
  - intros s l f v IH. destruct f; exact IH.
  - intros s l t IH. exact IH.
  - intros s l t IH. destruct t; exact IH.
  - intros s l b _ IH.
    destruct (sendVerificationCode_frame (resendPhone b s) b s)
      as [_ [[-> ->] | [-> _]]]; [exact IH|].
    cbn. intros Hl.
    assert (isLoading s = true) as Hs.
    { revert Hl. act_run; done. }
    destruct (IH Hs) as (p & Hp & Hne). exists p. split; [by right|done].
  - intros s l h Hh IH Hl.
    destruct (result_of (h s)) as [c|p] eqn:Hr; cbn.
    + destruct c.
      * destruct (returned_without_network_call h s Hh Hr) as [_ Hsame].
        rewrite Hsame in Hl. by apply IH.
      * exfalso. revert Hr.
        destruct Hh as [-> | [-> | [-> | ->]]]; act_run; done.
    + exists p. split; [by left|].
      destruct (form_handlers_frame h s Hh) as (_ & _ & Hne).
      intros ->. by apply Hne.
  - intros s l m IH Hl. apply IH. revert Hl.
    destruct s as [? ? ? ? ? q ? ? ? t i ? ? ? ? ? ? ? ? ? ? ? ? tm nx].
    destruct m, q, t, i; exact (fun H => H).
  - intros s l IH Hl. apply IH. revert Hl.
    rewrite refreshQRCode_eq, clearQRTimers_eq. exact (fun H => H).
  - intros s l IH Hl. apply IH. exact Hl.
  - intros s l p o rest Hrm IH Hl.
    destruct p.
    + (* the send-code continuation leaves isLoading and the submits alone *)
      assert (isLoading s = true) as Hs.
      { revert Hl. destruct o as [r|e]; act_run; done. }
      destruct (IH Hs) as (q & Hq & Hne). exists q. split; [|done].
      by apply (remove_one_keeps q _ _ _ Hrm).
    + exfalso. revert Hl. destruct o; act_run; done.
    + exfalso. revert Hl. destruct o; act_run; done.
    + exfalso. revert Hl. destruct o; act_run; done.
    + exfalso. revert Hl. destruct o as [r|e]; [|act_run; done].
      unfold resume, handleForgotPassword_resume.
      destruct (success r); act_run; done.
  - intros s l id t Hid IH Hl. apply IH. revert Hl.
    rewrite (fire_live _ _ _ Hid).
    set (s0 := if timer_repeats t then s
               else set_timers (delete id (timers s)) s).
    assert (isLoading s0 = isLoading s) as <-
      by (subst s0; by destruct (timer_repeats t)).
    clearbody s0. destruct (timer_cb t); cbn [run_callback].
    + rewrite countdown_tick_eq. cbv zeta.
      destruct (js_dec (codeCountdown s0) <=? 0)%Z; exact (fun H => H).
    + exact (fun H => H).
    + rewrite qr_expire_eq. exact (fun H => H).
  - intros s l IH Hl. apply IH. revert Hl.
    unfold onBeforeUnmount. by rewrite clearQRTimers_eq.
Qed.

(** X13.  In every reachable state the loading flag is on only while a
    submit is pending: whenever [isLoading] is true, an await of the auth
    store (login, register or reset) has not settled yet, so the flag
    cannot stay on once the store has answered or thrown. *)
Theorem loading_only_while_submit_pending w :
  reachable w ->
  isLoading (page w) = true -> submit_pending (inflight w).
Proof.
  induction 1 as [|e w w' _ IH Hstep]; [done|].
  by apply (loading_step e w w').
Qed.

(** *** What a step does to the timers, the countdown and the QR flags *)

Definition qr_flags_same (s s' : St) : Prop :=
  wechatQRUrl s' = wechatQRUrl s ∧ qrExpired s' = qrExpired s ∧
  qrScanned s' = qrScanned s.

Definition expire_timer : Timer := Build_Timer CbQRExpire QR_EXPIRE_TIME false.

(** The timer table after clearQRTimers. *)
Definition cleared_timers (s : St) : gmap positive Timer :=
  cancel (qrCheckInterval s) (cancel (qrExpireTimer s) (timers s)).

Inductive effect (s : St) (l : list Pending) (s' : St) : Prop :=
| eff_keep :
    same_timers s s' -> codeCountdown s' = codeCountdown s ->
    qr_flags_same s s' ->
    isSendingCode s' = isSendingCode s ∨ isSendingCode s' = false ∨
      (isSendingCode s' = true ∧ (codeCountdown s ≤ 0)%Z) ->
    effect s l s'
| eff_clear :
    timers s' = cleared_timers s -> nextTimer s' = nextTimer s ->
    qrCheckInterval s' = None -> qrExpireTimer s' = None ->
    codeCountdown s' = codeCountdown s ->
    isSendingCode s' = isSendingCode s ->
    wechatQRUrl s' = wechatQRUrl s -> qrScanned s' = qrScanned s ->
    qrExpired s' = qrExpired s ∨ qrExpired s' = false ->
    effect s l s'
| eff_start base :
    base = timers s ∨ base = cleared_timers s ->
    timers s' =
      <[(nextTimer s + 1)%positive := expire_timer]>
        (<[nextTimer s := poll_timer]> base) ->
    nextTimer s' = (nextTimer s + 1 + 1)%positive ->
    qrCheckInterval s' = Some (nextTimer s) ->
    qrExpireTimer s' = Some (nextTimer s + 1)%positive ->
    codeCountdown s' = codeCountdown s ->
    isSendingCode s' = isSendingCode s ->
    qrScanned s' = false -> qrExpired s' = false ->
    effect s l s'
| eff_sent :
    AwaitSendCode ∈ l ->
    timers s' = <[nextTimer s := countdown_timer]> (timers s) ->
    nextTimer s' = (nextTimer s + 1)%positive ->
    qrCheckInterval s' = qrCheckInterval s ->
    qrExpireTimer s' = qrExpireTimer s ->
    codeCountdown s' = sendInterval -> isSendingCode s' = false ->
    qr_flags_same s s' ->
    effect s l s'
| eff_fire id t :
    timers s !! id = Some t -> s' = state_of (fire id s) ->
    effect s l s'.

Lemma remove_one_elem p l rest : remove_one p l = Some rest -> p ∈ l.
Proof.
  revert rest. induction l as [|x l IH]; intros rest; [done|].
  cbn [remove_one]. destruct (decide (p = x)) as [<- | Hpx].
  - intros _. by left.
  - destruct (remove_one p l) as [r|] eqn:Hr; [|done].
    intros _. right. by apply (IH r).
Qed.

Lemma step_effect e w w' :
  step e w = Some w' -> effect (page w) (inflight w) (page w').
Proof.
  intros Hstep.
  apply (step_elim (fun s l s' _ => effect s l s')) with (e := e);
    [..|exact Hstep]; clear.
  - intros s l f v. apply eff_keep; [apply edit_frame | ..];
      destruct f; repeat split; auto.
  - intros s l t. apply eff_keep; repeat split; auto.
  - intros s l t. apply eff_keep; [apply toggle_frame | ..];
      destruct t; repeat split; auto.
  - intros s l b Hd.
    assert ((codeCountdown s ≤ 0)%Z) as Hcd.
    { unfold resendDisabled in Hd. apply orb_false_iff in Hd as [_ Hd].
      by apply Z.ltb_ge in Hd. }
    unfold sendVerificationCode.
    destruct (String.eqb _ _); [apply eff_keep; repeat split; auto|].
    destruct (phoneRegex_test _); cbn [negb];
      apply eff_keep; repeat split; auto.
  - intros s l h Hh.
    destruct (form_handlers_frame h s Hh) as (Hst & Hsend & _).
    apply eff_keep; [exact Hst | | | by left];
      destruct Hh as [-> | [-> | [-> | ->]]]; act_unfold; cbn;
      repeat match goal with
      | |- context [String.eqb ?a ?b] => destruct (String.eqb a b); cbn
      | |- context [isValid ?v] => destruct (isValid v); cbn
      end; repeat split.
  - intros s l m.
    destruct (decide ((m = ModeRegister ∨ m = ModeForgot) ∧
                      showWechatQR s = true)) as [[Hm Hq] | Hn].
    + rewrite (switchMode_away _ _ Hm Hq), !clearQRTimers_eq.
      apply eff_clear; auto.
    + rewrite switchMode_stay.
      * apply eff_keep; repeat split; auto.
      * destruct m; auto; destruct (showWechatQR s); auto;
          destruct Hn; auto.
  - intros s l. rewrite refreshQRCode_eq, clearQRTimers_eq.
    apply (eff_start _ _ _ (cleared_timers s)); auto.
  - intros s l. apply (eff_start _ _ _ (timers s)); auto.
  - intros s l p o rest Hrm.
    destruct (decide (p = AwaitSendCode)) as [-> | Hp].
    + apply remove_one_elem in Hrm. unfold resume, sendVerificationCode_resume.
      destruct o as [r | err]; [destruct (success r)|].
      * apply eff_sent; try done; repeat split.
      * apply eff_keep; repeat split; auto.
      * apply eff_keep; repeat split; auto.
    + destruct (other_resume_frame p o s Hp) as [Hst Hsend].
      apply eff_keep; [exact Hst | | | by left];
        destruct p; try done; destruct o as [r | err];
        unfold resume, handleLogin_resume, handlePhoneCodeLogin_resume,
          handleRegister_resume, handleForgotPassword_resume;
        try destruct (success r); repeat split.
  - intros s l id t Hid. by apply (eff_fire _ _ _ id t).
  - intros s l. unfold onBeforeUnmount. rewrite clearQRTimers_eq.
    apply eff_clear; auto.
Qed.

Lemma cancel_lookup_ne h m id :
  h ≠ Some id -> cancel h m !! id = m !! id.
Proof.
  destruct h as [j|]; cbn; [|done].
  intros ?. apply lookup_delete_ne. congruence.
Qed.

Lemma cleared_timers_sub s id t :
  cleared_timers s !! id = Some t -> timers s !! id = Some t.
Proof.
  unfold cleared_timers. intros H.
  apply cancel_lookup_Some in H as [H _].
  by apply cancel_lookup_Some in H as [H _].
Qed.

(** What firing a timer does to the countdown and to the QR flags. *)
Lemma fire_more s id t :
  timers s !! id = Some t ->
  let s' := state_of (fire id s) in
  let base := if timer_repeats t then timers s else delete id (timers s) in
  wechatQRUrl s' = wechatQRUrl s ∧
  match timer_cb t with
  | CbCountdown =>
      qrExpired s' = qrExpired s ∧ qrScanned s' = qrScanned s ∧
      codeCountdown s' = js_dec (codeCountdown s) ∧
      timers s' = if (js_dec (codeCountdown s) <=? 0)%Z then delete id base
                  else base
  | CbQRCheck =>
      qrExpired s' = qrExpired s ∧ qrScanned s' = qrScanned s ∧
      codeCountdown s' = codeCountdown s
  | CbQRExpire =>
      qrExpired s' = true ∧ qrScanned s' = false ∧
      codeCountdown s' = codeCountdown s ∧
      timers s' = cancel (qrCheckInterval s) base
  end.
Proof.
  intros Hid. cbv zeta. rewrite (fire_live _ _ _ Hid).
  destruct (timer_cb t); cbn [run_callback].
  - rewrite countdown_tick_eq. cbv zeta.
    destruct (timer_repeats t); cbn;
      destruct (js_dec (codeCountdown s) <=? 0)%Z; by repeat split.
  - by destruct (timer_repeats t).
  - rewrite qr_expire_eq. by destruct (timer_repeats t).
Qed.

(** *** Three more invariants *)

(** The expiry handle, when set, holds an id that has been handed out, and a
    live timer with that id is an expiry timeout. *)
Definition expire_handle_ok (s : St) : Prop :=
  ∀ id, qrExpireTimer s = Some id ->
    (id < nextTimer s)%positive ∧
    ∀ t, timers s !! id = Some t -> timer_cb t = CbQRExpire.

(** [qrScanned] is true only as long as no QR flow has ever been started,
    and [qrExpired] only while the poll handle is null. *)
Definition qr_flags_ok (s : St) : Prop :=
  (qrScanned s = true ->
     wechatQRUrl s = "" ∧ qrCheckInterval s = None ∧
     qrExpireTimer s = None ∧ qrExpired s = false ∧ no_qr_timer s) ∧
  (qrExpired s = true -> qrCheckInterval s = None ∧ qrScanned s = false).

(** The countdown and its interval. *)
Definition countdown_ok (s : St) : Prop :=
  (0 ≤ codeCountdown s ≤ sendInterval)%Z ∧
  (∀ id t, timers s !! id = Some t -> timer_cb t = CbCountdown ->
           t = countdown_timer ∧ (0 < codeCountdown s)%Z) ∧
  (∀ i j t t', timers s !! i = Some t -> timers s !! j = Some t' ->
               timer_cb t = CbCountdown -> timer_cb t' = CbCountdown ->
               i = j) ∧
  (isSendingCode s = true -> (codeCountdown s ≤ 0)%Z) ∧
  ((0 < codeCountdown s)%Z -> ∃ id, timers s !! id = Some countdown_timer).

Lemma effect_expire_handle s l s' :
  effect s l s' -> expire_handle_ok s -> expire_handle_ok s'.
Proof.
  intros Heff Hok.
  destruct Heff as [(Ht & Hn & _ & He) _ _ _
                   | _ _ _ He _ _ _ _ _
                   | base _ Ht Hn _ He _ _ _ _
                   | _ Ht Hn _ He _ _ _
                   | id0 t0 Hid ->].
  - unfold expire_handle_ok. by rewrite Ht, Hn, He.
  - intros id. by rewrite He.
  - intros id. rewrite He, Hn, Ht. intros [= <-]. split; [lia|].
    intros t. rewrite lookup_insert_eq. by intros [= <-].
  - intros id. rewrite He, Hn, Ht. intros Hid.
    destruct (Hok id Hid) as [Hlt Hcb]. split; [lia|].
    intros t. rewrite lookup_insert_ne by lia. apply Hcb.
  - destruct (fire_effect _ _ _ Hid) as (_ & Hn & He & Hsub & _).
    intros id. rewrite He, Hn. intros Hh.
    destruct (Hok id Hh) as [Hlt Hcb]. split; [done|].
    intros t Ht. apply Hcb. by apply Hsub.
Qed.

Lemma effect_qr_flags s l s' :
  effect s l s' -> qr_flags_ok s -> qr_flags_ok s'.
Proof.
  intros Heff [Hsc Hex].
  destruct Heff as [(Ht & _ & Hc & He) _ (Hu & Hx & Hq) _
                   | Ht _ Hc He _ _ Hu Hq Hx
                   | base _ _ _ _ _ _ _ Hq Hx
                   | _ Ht _ Hc He _ _ (Hu & Hx & Hq)
                   | id0 t0 Hid ->].
  - unfold qr_flags_ok, no_qr_timer. by rewrite Ht, Hc, He, Hu, Hx, Hq.
  - split.
    + rewrite Hq. intros Hs. destruct (Hsc Hs) as (H1 & _ & _ & H4 & H5).
      rewrite Hu, Hc, He. repeat split; [done | by destruct Hx as [-> | ->] |].
      intros id t. rewrite Ht. intros Hid.
      apply (H5 id t). by apply cleared_timers_sub.
    + rewrite Hc, Hq. intros Hs. split; [done|].
      destruct Hx as [Hx | Hx]; [|congruence].
      rewrite Hx in Hs. by destruct (Hex Hs).
  - split; [rewrite Hq | rewrite Hx]; discriminate.
  - split.
    + rewrite Hq, Hu, Hc, He, Hx. intros Hs.
      destruct (Hsc Hs) as (H1 & H2 & H3 & H4 & H5).
      repeat split; try done.
      intros id t. rewrite Ht, lookup_insert.
      case_decide; [by intros [= <-] | apply H5].
    + rewrite Hx, Hc, Hq. apply Hex.
  - destruct (fire_effect _ _ _ Hid) as (_ & _ & He & Hsub & Hcb).
    destruct (fire_more _ _ _ Hid) as (Hu & Hmore).
    cbv zeta in Hmore.
    destruct (timer_cb t0) eqn:Hk.
    + destruct Hcb as [Hc _]. destruct Hmore as (Hx & Hq & _).
      split.
      * rewrite Hq, Hu, Hc, He, Hx. intros Hs.
        destruct (Hsc Hs) as (H1 & H2 & H3 & H4 & H5).
        repeat split; try done.
        intros id t Ht. apply (H5 id t). by apply Hsub.
      * rewrite Hx, Hc, Hq. apply Hex.
    + destruct Hcb as [Hc _]. destruct Hmore as (Hx & Hq & _).
      split.
      * rewrite Hq, Hu, Hc, He, Hx. intros Hs.
        destruct (Hsc Hs) as (H1 & H2 & H3 & H4 & H5).
        repeat split; try done.
        intros id t Ht. apply (H5 id t). by apply Hsub.
      * rewrite Hx, Hc, Hq. apply Hex.
    + destruct Hcb as [Hc _]. destruct Hmore as (Hx & Hq & _).
      split; [rewrite Hq; discriminate | by rewrite Hc, Hq].
Qed.

Lemma cleared_keeps_countdown s id t :
  poll_live s -> expire_handle_ok s ->
  timers s !! id = Some t -> timer_cb t = CbCountdown ->
  cleared_timers s !! id = Some t.
Proof.
  intros Hp He Hid Hcb. unfold cleared_timers.
  rewrite !cancel_lookup_ne; [done | |].
  - intros Hh. destruct (He id Hh) as [_ Hx]. specialize (Hx t Hid).
    congruence.
  - intros Hh. specialize (Hp id Hh). rewrite Hp in Hid.
    injection Hid as <-. discriminate.
Qed.

(** A step that leaves the counter alone, keeps the countdown timers and
    sets [isSendingCode] only where the counter allows it. *)
Lemma countdown_ok_transfer s s' :
  codeCountdown s' = codeCountdown s ->
  (isSendingCode s' = true ->
   isSendingCode s = true ∨ (codeCountdown s ≤ 0)%Z) ->
  (∀ id t, timer_cb t = CbCountdown ->
           timers s' !! id = Some t ↔ timers s !! id = Some t) ->
  countdown_ok s -> countdown_ok s'.
Proof.
  intros Hcd Hsend Ht (Hb & Hall & Huniq & Hs & Hlive).
  unfold countdown_ok. rewrite Hcd. repeat apply conj.
  - apply Hb.
  - apply Hb.
  - intros id t Hid Hcb. apply (Hall id t); [by apply Ht | done].
  - intros i j t t' Hi Hj Hc Hc'.
    apply (Huniq i j t t'); [by apply Ht | by apply Ht | done | done].
  - intros H. destruct (Hsend H) as [H' | H']; [by apply Hs | done].
  - intros Hpos. destruct (Hlive Hpos) as [id Hid]. exists id.
    by apply Ht.
Qed.

Lemma effect_countdown s l s' :
  (1 ≤ sendInterval)%Z ->
  effect s l s' ->
  ids_fresh s -> poll_live s -> expire_handle_ok s ->
  (AwaitSendCode ∈ l -> isSendingCode s = true) ->
  countdown_ok s -> countdown_ok s'.
Proof.
  intros Hn Heff Hfresh Hpoll Hexp Htrack Hok.
  destruct Heff as [(Ht & _) Hcd _ Hsend
                   | Ht _ _ _ Hcd Hsend _ _ _
                   | base Hbase Ht _ _ _ Hcd Hsend _ _
                   | Hin Ht _ _ _ Hcd Hsend _
                   | id0 t0 Hid ->].
  - apply (countdown_ok_transfer s); [done | | by rewrite Ht | done].
    intros H. destruct Hsend as [Hs | [Hs | [_ Hs]]];
      [left; congruence | congruence | by right].
  - apply (countdown_ok_transfer s); [done | left; congruence | | done].
    intros id t Hcb. rewrite Ht. split.
    + apply cleared_timers_sub.
    + intros Hid. by apply cleared_keeps_countdown.
  - apply (countdown_ok_transfer s); [done | left; congruence | | done].
    intros id t Hcb. rewrite Ht.
    destruct (decide (id = (nextTimer s + 1)%positive)) as [-> | Hne1].
    { rewrite lookup_insert_eq. split.
      - intros [= <-]. discriminate.
      - intros Hid. apply Hfresh in Hid. lia. }
    rewrite lookup_insert_ne by done.
    destruct (decide (id = nextTimer s)) as [-> | Hne].
    { rewrite lookup_insert_eq. split.
      - intros [= <-]. discriminate.
      - intros Hid. apply Hfresh in Hid. lia. }
    rewrite lookup_insert_ne by done.
    destruct Hbase as [-> | ->]; [done|]. split.
    + apply cleared_timers_sub.
    + intros Hid. by apply cleared_keeps_countdown.
  - destruct Hok as (Hb & Hall & Huniq & Hs & Hlive).
    assert ((codeCountdown s ≤ 0)%Z) as Hzero by auto.
    assert (∀ id t, timers s !! id = Some t -> timer_cb t ≠ CbCountdown)
      as Hnone.
    { intros id t Hid Hcb. destruct (Hall id t Hid Hcb). lia. }
    unfold countdown_ok. rewrite Hcd, Hsend, Ht. repeat apply conj.
    + lia.
    + lia.
    + intros id t. rewrite lookup_insert. case_decide.
      * intros [= <-] _. split; [done | lia].
      * intros Hid Hcb. by destruct (Hnone id t Hid).
    + intros i j t t'. rewrite !lookup_insert.
      repeat case_decide; subst.
      * done.
      * intros _ Hj _ Hc. by destruct (Hnone j t' Hj).
      * intros Hi _ Hc. by destruct (Hnone i t Hi).
      * intros Hi _ Hc. by destruct (Hnone i t Hi).
    + done.
    + intros _. exists (nextTimer s). apply lookup_insert_eq.
  - destruct (fire_effect _ _ _ Hid) as (Hsend & _ & _ & Hsub & Hcb).
    destruct (fire_more _ _ _ Hid) as (_ & Hmore). cbv zeta in Hmore.
    destruct (timer_cb t0) eqn:Hk.
    + destruct Hmore as (_ & _ & Hcd & Ht).
      destruct Hok as (Hb & Hall & Huniq & Hs & Hlive).
      destruct (Hall id0 t0 Hid Hk) as [-> Hpos].
      cbn [countdown_timer timer_repeats] in Ht.
      pose proof (js_dec_le (codeCountdown s)) as Hdle.
      pose proof (js_dec_nonneg (codeCountdown s)) as Hdnn.
      unfold countdown_ok. rewrite Hcd, Hsend. repeat apply conj.
      * lia.
      * lia.
      * intros id t Hid' Hcb'. split; [by apply (Hall id t); auto|].
        destruct (js_dec (codeCountdown s) <=? 0)%Z eqn:Hle.
        -- rewrite Ht in Hid'. apply lookup_delete_Some in Hid' as [Hne H].
           destruct Hne. by apply (Huniq id0 id countdown_timer t).
        -- apply Z.leb_gt in Hle. lia.
      * intros i j t t' Hi Hj. apply (Huniq i j t t'); auto.
      * intros H. specialize (Hs H). lia.
      * intros Hpos'. exists id0. rewrite Ht.
        destruct (js_dec (codeCountdown s) <=? 0)%Z eqn:Hle; [|done].
        apply Z.leb_le in Hle. lia.
    + destruct Hmore as (_ & _ & Hcd). destruct Hcb as [_ Ht].
      apply (countdown_ok_transfer s); [done | left; congruence | | done].
      intros id t Hc. split; [apply Hsub|]. intros Hid'. rewrite Ht.
      destruct (timer_repeats t0); [done|].
      rewrite lookup_delete_ne; [done|]. intros <-. congruence.
    + destruct Hmore as (_ & _ & Hcd & Ht).
      apply (countdown_ok_transfer s); [done | left; congruence | | done].
      intros id t Hc. split; [apply Hsub|]. intros Hid'. rewrite Ht.
      rewrite cancel_lookup_ne.
      * destruct (timer_repeats t0); [done|].
        rewrite lookup_delete_ne; [done|]. intros <-. congruence.
      * intros Hh. specialize (Hpoll id Hh). rewrite Hpoll in Hid'.
        injection Hid' as <-. discriminate.
Qed.

Lemma expire_handle_ok_init : expire_handle_ok init.
Proof. intros id. discriminate. Qed.

Lemma qr_flags_ok_init : qr_flags_ok init.
Proof.
  split; [|discriminate]. intros _. repeat split. intros id t.
  cbn. by rewrite lookup_empty.
Qed.

Lemma countdown_ok_init : (1 ≤ sendInterval)%Z -> countdown_ok init.
Proof.
  intros Hn. unfold countdown_ok. cbn. repeat apply conj; try lia.
  - intros id t. by rewrite lookup_empty.
  - intros i j t t'. by rewrite lookup_empty.
Qed.

Lemma sent_means_sending w :
  sending_tracked w -> AwaitSendCode ∈ inflight w ->
  isSendingCode (page w) = true.
Proof.
  unfold sending_tracked, sends_inflight. intros Ht Hin.
  destruct (isSendingCode (page w)); [done|].
  apply (count_occ_not_In Pending_eq_dec) in Ht.
  destruct Ht. by apply list_elem_of_In.
Qed.

Lemma reachable_qr_inv w :
  reachable w -> expire_handle_ok (page w) ∧ qr_flags_ok (page w).
Proof.
  induction 1 as [|e w w' _ [He Hq] Hstep].
  - split; [apply expire_handle_ok_init | apply qr_flags_ok_init].
  - pose proof (step_effect _ _ _ Hstep) as Heff. split.
    + by apply (effect_expire_handle _ _ _ Heff).
    + by apply (effect_qr_flags _ _ _ Heff).
Qed.

Lemma reachable_countdown_ok w :
  (1 ≤ sendInterval)%Z -> reachable w -> countdown_ok (page w).
Proof.
  intros Hn. induction 1 as [|e w w' Hw IH Hstep].
  - by apply countdown_ok_init.
  - destruct (reachable_inv w Hw) as (Hf & Hp & Ht).
    destruct (reachable_qr_inv w Hw) as [He _].
    apply (effect_countdown (page w) (inflight w)); auto.
    + by apply (step_effect e).
    + by apply sent_means_sending.
Qed.

(** The label of a send-code button (template lines 427, 521 and 618):
    [codeCountdown > 0 ? `${codeCountdown}s`
                       : (isSendingCode ? '发送中' : '获取验证码')]. *)
Inductive ResendLabel :=
| LabelSeconds (n : Z)   (* `${n}s` *)
| LabelSending           (* '发送中' *)
| LabelGetCode.          (* '获取验证码' *)

Definition resendLabel (s : St) : ResendLabel :=
  if (0 <? codeCountdown s)%Z then LabelSeconds (codeCountdown s)
  else if isSendingCode s then LabelSending else LabelGetCode.

(** X14.  Nothing ever sets qrScanned to true: it is true only as long as
    no QR flow has been started since the page was created.  In such a
    state no QR code has been generated, both handles are null, the code has
    not expired and only countdown timers are live. *)
Theorem qrScanned_only_before_first_start w :
  reachable w -> qrScanned (page w) = true ->
  wechatQRUrl (page w) = "" ∧
  qrCheckInterval (page w) = None ∧ qrExpireTimer (page w) = None ∧
  qrExpired (page w) = false ∧ no_qr_timer (page w).
Proof.
  intros Hw Hs. destruct (reachable_qr_inv w Hw) as [_ [Hq _]]. by apply Hq.
Qed.

(** X15.  While the code is marked expired the poll handle is null, the
    code is not marked scanned, and the "scanned" overlay is not shown. *)
Theorem expired_means_poll_stopped w :
  reachable w -> qrExpired (page w) = true ->
  qrCheckInterval (page w) = None ∧ qrScanned (page w) = false ∧
  scannedOverlay (page w) = false.
Proof.
  intros Hw Hx. destruct (reachable_qr_inv w Hw) as [_ [_ Hq]].
  destruct (Hq Hx) as [Hc Hs]. repeat split; [done | done |].
  unfold scannedOverlay. rewrite Hs. apply andb_false_iff. left.
  apply andb_false_r.
Qed.

(** X16.  With a resend interval of at least one second, in every reachable
    state the countdown lies between 0 and the interval, at most one
    countdown interval is live, a live one is the one-second repeating
    interval and the countdown is then positive, and no send is in flight
    while the countdown is positive. *)
Theorem countdown_bounded_single_interval w :
  (1 ≤ sendInterval)%Z -> reachable w ->
  (0 ≤ codeCountdown (page w) ≤ sendInterval)%Z ∧
  (∀ i j t t', timers (page w) !! i = Some t ->
               timers (page w) !! j = Some t' ->
               timer_cb t = CbCountdown -> timer_cb t' = CbCountdown ->
               i = j) ∧
  (∀ id t, timers (page w) !! id = Some t -> timer_cb t = CbCountdown ->
           t = countdown_timer ∧ (0 < codeCountdown (page w))%Z) ∧
  ((0 < codeCountdown (page w))%Z ->
     isSendingCode (page w) = false ∧ AwaitSendCode ∉ inflight w).
Proof.
  intros Hn Hw.
  destruct (reachable_countdown_ok w Hn Hw) as (Hb & Hall & Huniq & Hs & _).
  split; [exact Hb|]. split; [exact Huniq|]. split; [exact Hall|].
  intros Hpos. split.
  - destruct (isSendingCode (page w)); [|done].
    specialize (Hs eq_refl). lia.
  - intros Hin. destruct (reachable_inv w Hw) as (_ & _ & Ht).
    pose proof (sent_means_sending w Ht Hin) as H. specialize (Hs H). lia.
Qed.

(** X17.  With a resend interval between 1 and 2^53 seconds (the whole
    numbers on which decrementing a JavaScript number is exact), a positive
    countdown is never stuck: in every reachable state with
    codeCountdown = c > 0 the countdown interval is live, and after c ticks
    of it the countdown is 0, the interval has cancelled itself and the
    send-code buttons are enabled.  (Past 2^53 a tick need not move the
    countdown: see [js_dec_sticks].) *)
Theorem countdown_never_stuck w button :
  (1 ≤ sendInterval)%Z -> (sendInterval ≤ 2 ^ 53)%Z -> reachable w ->
  (0 < codeCountdown (page w))%Z ->
  ∃ id,
    timers (page w) !! id = Some countdown_timer ∧
    let done := fire_times (Z.to_nat (codeCountdown (page w))) id (page w) in
    codeCountdown done = 0%Z ∧ timers done !! id = None ∧
    resendDisabled button done = false.
Proof.
  intros Hn Hsafe Hw Hpos.
  destruct (reachable_countdown_ok w Hn Hw) as (Hb & _ & _ & Hs & Hlive).
  destruct (Hlive Hpos) as [id Hid]. exists id. split; [done|]. cbv zeta.
  destruct (countdown_after_ticks (Z.to_nat (codeCountdown (page w)))
              (page w) id (codeCountdown (page w)))
    as (H1 & H2 & _ & H4); [done | done | lia | lia |].
  cbv zeta in H1, H2, H4.
  assert (codeCountdown
            (fire_times (Z.to_nat (codeCountdown (page w))) id (page w)) = 0%Z)
    as H0 by (rewrite H1; lia).
  split; [done|]. split; [apply H4; lia|].
  unfold resendDisabled. rewrite H0, H2.
  destruct (isSendingCode (page w)); [|done].
  specialize (Hs eq_refl). lia.
Qed.

(** X18.  Unmounting the page does not stop the countdown: a countdown
    interval that is live when onBeforeUnmount runs is still live
    afterwards, and its next tick still decrements codeCountdown. *)
Theorem unmount_keeps_countdown w id t :
  reachable w ->
  timers (page w) !! id = Some t -> timer_cb t = CbCountdown ->
  let s' := state_of (onBeforeUnmount (page w)) in
  timers s' !! id = Some t ∧
  codeCountdown s' = codeCountdown (page w) ∧
  codeCountdown (state_of (fire id s')) = js_dec (codeCountdown (page w)).
Proof.
  intros Hw Hid Hcb. cbv zeta.
  destruct (reachable_inv w Hw) as (_ & Hp & _).
  destruct (reachable_qr_inv w Hw) as [He _].
  pose proof (cleared_keeps_countdown _ _ _ Hp He Hid Hcb) as Hkeep.
  unfold onBeforeUnmount. rewrite clearQRTimers_eq.
  unfold cleared_timers in Hkeep.
  set (s' := state_of _).
  assert (timers s' !! id = Some t) as Hid' by exact Hkeep.
  assert (codeCountdown s' = codeCountdown (page w)) as Hcd by reflexivity.
  split; [done|]. split; [done|].
  destruct (fire_more _ _ _ Hid') as (_ & Hmore). cbv zeta in Hmore.
  rewrite Hcb in Hmore. destruct Hmore as (_ & _ & -> & _). by rewrite Hcd.
Qed.

(** X19.  The expiry handle never names a poll interval or a countdown
    interval: when it is set, its id has been handed out, and a live timer
    with that id is an expiry timeout.  So the clearTimeout of
    clearQRTimers on a handle whose timeout has already fired cancels
    nothing else. *)
Theorem expiry_handle_names_no_other_timer w id :
  reachable w -> qrExpireTimer (page w) = Some id ->
  (id < nextTimer (page w))%positive ∧
  (∀ t, timers (page w) !! id = Some t -> timer_cb t = CbQRExpire) ∧
  (∀ j t, timers (page w) !! j = Some t -> timer_cb t ≠ CbQRExpire ->
          cancel (qrExpireTimer (page w)) (timers (page w)) !! j = Some t).
Proof.
  intros Hw Hh. destruct (reachable_qr_inv w Hw) as [He _].
  destruct (He id Hh) as [Hlt Hcb]. repeat split; [done | done |].
  intros j t Hj Hne. rewrite cancel_lookup_ne; [done|].
  rewrite Hh. intros [= ->]. by apply Hne, Hcb.
Qed.

(** X20.  With a resend interval of at least one second, the label of a
    send-code button tells its state in every reachable state: it reads
    '发送中' exactly while a send is in flight, '获取验证码' exactly when the
    button is enabled, and otherwise the seconds left, between 1 and the
    interval. *)
Theorem resend_label_tracks_state w button :
  (1 ≤ sendInterval)%Z -> reachable w ->
  (resendLabel (page w) = LabelSending ↔ isSendingCode (page w) = true) ∧
  (resendLabel (page w) = LabelGetCode ↔
     resendDisabled button (page w) = false) ∧
  (∀ n, resendLabel (page w) = LabelSeconds n ->
        n = codeCountdown (page w) ∧ (1 ≤ n ≤ sendInterval)%Z).
Proof.
  intros Hn Hw.
  destruct (reachable_countdown_ok w Hn Hw) as (Hb & _ & _ & Hs & _).
  unfold resendLabel, resendDisabled.
  destruct (0 <? codeCountdown (page w))%Z eqn:Hpos.
  - apply Z.ltb_lt in Hpos. split; [|split].
    + split; [discriminate|]. intros H. specialize (Hs H). lia.
    + rewrite orb_true_r. split; discriminate.
    + intros n [= <-]. lia.
  - destruct (isSendingCode (page w));
      (split; [by split | split; [by split | discriminate]]).
Qed.

(** ** The payload of handleLogin *)

Lemma includes_In c s :
  includes c s = true ↔ In c (String.list_ascii_of_string s).
Proof.
  induction s as [|a rest IH]; cbn; [split; [discriminate | tauto]|].
  destruct (Ascii.eqb a c) eqn:Heq.
  - apply Ascii.eqb_eq in Heq. split; [by left | done].
  - apply Ascii.eqb_neq in Heq. rewrite IH. split; [by right|].
    by intros [? | ?].
Qed.

(** X21.  handleLogin sends the account in exactly one of the two fields
    [email] and [phone]: in [email] when some character of it is an at
    sign, in [phone] otherwise (an empty account included); the password
    goes along, no code does, and the payload is typed 'email' in both
    cases. *)
Theorem login_account_goes_to_one_field form :
  let p := loginPayload form in
  let account := login_account form in
  (In "@"%char (String.list_ascii_of_string account) ->
     lp_email p = Some account ∧ lp_phone p = None) ∧
  (¬ In "@"%char (String.list_ascii_of_string account) ->
     lp_email p = None ∧ lp_phone p = Some account) ∧
  (lp_email p = None ↔ lp_phone p ≠ None) ∧
  lp_password p = Some (login_password form) ∧
  lp_code p = None ∧ lp_type p = KindEmail.
Proof.
  cbv zeta. unfold loginPayload. cbv zeta. cbn.
  destruct (includes "@" (login_account form)) eqn:Hinc; cbn.
  - apply includes_In in Hinc. repeat split; try done.
  - assert (¬ In "@"%char (String.list_ascii_of_string (login_account form))) as Hn.
    { intros H. apply includes_In in H. congruence. }
    repeat split; try done.
Qed.

(** ** The page as rendered *)

Lemma page_reachable_reachable w : page_reachable w -> reachable w.
Proof.
  induction 1 as [|e w w' _ IH Hstep]; [apply reachable_init|].
  apply (reachable_step e w w' IH). unfold page_step in Hstep.
  by destruct (offered e (page w)).
Qed.







End Component.

(** C9.  The component starts with the QR panel showing an empty image
    source and with qrScanned already true, so the condition of the
    "scanned" overlay holds in the rendered QR column although no QR flow
    has started: both handles are null and no timer exists. *)
Theorem init_shows_scanned_overlay :
  page init_world = init ∧
  showWechatQR init = true ∧
  wechatQRUrl init = "" ∧
  qrScanned init = true ∧
  qrExpired init = false ∧
  qrColumnRendered init = true ∧
  scannedOverlay init = true ∧
  qrExpireTimer init = None ∧
  qrCheckInterval init = None ∧
  timers init = ∅.
Proof. repeat split. Qed.

(** ** Concrete runs *)

(** The machine with the sample collaborators plugged in. *)
Abbreviation sample_run :=
  (run sample_validateLoginForm sample_validateRegisterForm
     sample_validateResetPasswordForm sample_phoneRegex_test
     sample_sendInterval).

Abbreviation sample_reachable :=
  (reachable sample_validateLoginForm sample_validateRegisterForm
     sample_validateResetPasswordForm sample_phoneRegex_test
     sample_sendInterval).

Abbreviation sample_page_reachable :=
  (page_reachable sample_validateLoginForm sample_validateRegisterForm
     sample_validateResetPasswordForm sample_phoneRegex_test
     sample_sendInterval).

Lemma qr_owned_init : qr_owned init.
Proof. apply (bool_decide_unpack (qr_owned init)). vm_compute. exact I. Defined.

Lemma qr_running_world_reachable : sample_reachable qr_running_world.
Proof.
  apply (reachable_step _ _ _ _ _ EvRefreshQRCode init_world).
  - apply reachable_init.
  - vm_compute. reflexivity.
Defined.

Lemma qr_expired_world_reachable : sample_reachable qr_expired_world.
Proof.
  apply (reachable_step _ _ _ _ _ (EvFire 2) qr_running_world).
  - apply qr_running_world_reachable.
  - vm_compute. reflexivity.
Defined.

Lemma sending_world_reachable : sample_reachable sending_world.
Proof.
  apply (run_reachable _ _ _ _ _
           [EvEdit F_phoneLogin_phone "13800000000"; EvResend CodeLogin]
           init_world).
  - apply reachable_init.
  - vm_compute. reflexivity.
Defined.

Definition accepted : Response := {| success := true; msg := None |}.
Definition refused : Response := {| success := false; msg := None |}.

(** The page after sendCode has answered the send of [sending_world]. *)
Definition counting_world : World :=
  {| page := state_of (sendVerificationCode_resume sample_sendInterval
                         (Resolved accepted) (page sending_world));
     inflight := [];
     mounted := true |}.

(** The page after a click on the login button of the phone form. *)
Definition loading_world : World :=
  {| page := state_of (handlePhoneCodeLogin sample_validateLoginForm
                         (edit F_phoneLogin_phone "13800000000" init));
     inflight := [AwaitPhoneCodeLogin];
     mounted := true |}.

Lemma counting_world_reachable : sample_reachable counting_world.
Proof.
  apply (reachable_step _ _ _ _ _ (EvSettle AwaitSendCode (Resolved accepted))
           sending_world).
  - apply sending_world_reachable.
  - vm_compute. reflexivity.
Defined.


Lemma loading_world_reachable : sample_reachable loading_world.
Proof.
  apply (run_reachable _ _ _ _ _
           [EvEdit F_phoneLogin_phone "13800000000"; EvPhoneCodeLogin]
           init_world).
  - apply reachable_init.
  - vm_compute. reflexivity.
Defined.

(** C1.  The code at a submit the validator rejects: the login button is
    clicked with an empty phone number and validateLoginForm answers
    [isValid = false] with a message for [phone].  handlePhoneCodeLogin
    returns without calling the auth store, but the message is not in the
    error map: Object.assign was given the ref object, so the message sits
    in an own property of the ref, while the map the template reads
    ([loginErrors.value]) is still empty and nothing is shown. *)
Theorem invalid_login_errors_miss_the_map :
  let r := handlePhoneCodeLogin sample_validateLoginForm init in
  isValid (sample_validateLoginForm (phoneLoginPayload (phoneLoginForm init)))
    = false ∧
  result_of r = Finished Returned ∧
  calls_of r =
    [Call_validateLoginForm (phoneLoginPayload (phoneLoginForm init))] ∧
  existsb is_network_call (calls_of r) = false ∧
  ref_props (loginErrors (state_of r)) !! "phone" = Some "请输入手机号" ∧
  ref_value (loginErrors (state_of r)) = RObj ∅ ∧
  shown (loginErrors (state_of r)) "phone" = None.
Proof. cbv zeta. repeat apply conj; vm_compute; reflexivity. Qed.

(** Why the clearing of refreshQRCode matters.  handleWechatLogin taken
    alone, which the page never runs, clears nothing: invoked on a state
    that already holds a poll interval (id 1) and an expiry timeout (id 2)
    in its handles, it would leave two poll intervals (1 and 3) and two
    expiry timeouts (2 and 4) live. *)
Lemma handleWechatLogin_keeps_old_timers :
  let s1 := state_of (handleWechatLogin init) in
  let s2 := state_of (handleWechatLogin s1) in
  qr_owned s1 ∧
  qrCheckInterval s1 = Some 1%positive ∧
  qrExpireTimer s1 = Some 2%positive ∧
  timer_cb <$> timers s2 !! 1%positive = Some CbQRCheck ∧
  timer_cb <$> timers s2 !! 3%positive = Some CbQRCheck ∧
  timer_cb <$> timers s2 !! 2%positive = Some CbQRExpire ∧
  timer_cb <$> timers s2 !! 4%positive = Some CbQRExpire ∧
  ¬ single_qr_timers s2.
Proof.
  cbv zeta.
  split; [apply (bool_decide_unpack (qr_owned _)); vm_compute; exact I|].
  repeat apply conj; try (vm_compute; reflexivity).
  intros H.
  specialize (H 1%positive 3%positive poll_timer poll_timer
                eq_refl eq_refl eq_refl).
  discriminate H. discriminate.
Qed.

(** C2 at a refresh while a QR flow is running: the stored poll interval
    (id 1) and expiry timeout (id 2) are cleared, and the new ones (ids 3
    and 4) are the only QR timers afterwards. *)
Lemma refreshQRCode_clears_before_start_witness :
  let s' := state_of (refreshQRCode qr_running) in
  qr_owned qr_running ∧
  qrCheckInterval qr_running = Some 1%positive ∧
  timers qr_running !! 1%positive = Some poll_timer ∧
  qrExpireTimer qr_running = Some 2%positive ∧
  timers qr_running !! 2%positive = Some expire_timer ∧
  no_qr_timer (state_of (clearQRTimers qr_running)) ∧
  timers s' !! 1%positive = None ∧
  timers s' !! 2%positive = None ∧
  qrCheckInterval s' = Some 3%positive ∧
  qrExpireTimer s' = Some 4%positive ∧
  live (qrCheckInterval s') CbQRCheck s' ∧
  live (qrExpireTimer s') CbQRExpire s' ∧
  single_qr_timers s'.
Proof.
  cbv zeta.
  assert (Hown : qr_owned qr_running)
    by (apply (bool_decide_unpack (qr_owned _)); vm_compute; exact I).
  pose proof (refreshQRCode_clears_before_start
                sample_validateLoginForm sample_validateRegisterForm
                sample_validateResetPasswordForm sample_phoneRegex_test
                sample_sendInterval qr_running Hown)
    as (_ & Hno & _ & _ & Hc & He & Hs & _).
  split; [exact Hown|].
  split; [vm_compute; reflexivity|]. split; [vm_compute; reflexivity|].
  split; [vm_compute; reflexivity|]. split; [vm_compute; reflexivity|].
  split; [exact Hno|].
  split; [vm_compute; reflexivity|]. split; [vm_compute; reflexivity|].
  split; [vm_compute; reflexivity|]. split; [vm_compute; reflexivity|].
  exact (conj Hc (conj He Hs)).
Defined.

(** Were the refresh button offered while no code has expired, as [step]
    admits, the expiry timeout would leave its id behind: in the state
    [step] reaches by starting the QR flow and letting its expiry timeout
    (id 2) fire, qrExpireTimer still holds 2 although no timer with that
    id is live.  The page itself never gets there. *)
Lemma expiry_handle_outlives_timeout :
  sample_run [EvRefreshQRCode; EvFire 2] init_world = Some qr_expired_world ∧
  sample_reachable qr_expired_world ∧
  qrExpireTimer (page qr_expired_world) = Some 2%positive ∧
  timers (page qr_expired_world) !! 2%positive = None ∧
  ¬ handles_name_live_timers (page qr_expired_world).
Proof.
  split; [vm_compute; reflexivity|].
  split; [exact qr_expired_world_reachable|].
  split; [vm_compute; reflexivity|]. split; [vm_compute; reflexivity|].
  intros [_ H]. destruct (H 2%positive) as (t & Ht & _);
    [vm_compute; reflexivity|].
  vm_compute in Ht. discriminate Ht.
Qed.


(** C4 fails for the form handlers: when authStore.login rejects, the
    continuation of handleLogin neither logs nor toasts, and the exception
    is the handler's result. *)
Lemma login_rejection_escapes :
  let r := handleLogin_resume (Rejected (Error "Network Error"))
             (set_isLoading true init) in
  result_of r = Thrown (Error "Network Error") ∧
  calls_of r = [] ∧
  isLoading (state_of r) = false ∧
  ¬ caught_and_reported r.
Proof.
  cbv zeta. repeat apply conj; try (vm_compute; reflexivity).
  intros [H _]. vm_compute in H. discriminate H.
Qed.

(** C5 at the running QR flow, whose expiry timeout has id 2. *)
Lemma qr_expiry_callback_witness :
  timers qr_running !! 2%positive =
    Some (Build_Timer CbQRExpire QR_EXPIRE_TIME false) ∧
  qr_owned qr_running ∧
  qrExpired (state_of (fire 2 qr_running)) = true ∧
  qrScanned (state_of (fire 2 qr_running)) = false ∧
  qrCheckInterval (state_of (fire 2 qr_running)) = None ∧
  timers (state_of (fire 2 qr_running)) !! 1%positive = None ∧
  (∀ i t', timers (state_of (fire 2 qr_running)) !! i = Some t' ->
           timer_cb t' ≠ CbQRCheck).
Proof.
  assert (Hid : timers qr_running !! 2%positive =
                Some (Build_Timer CbQRExpire QR_EXPIRE_TIME false))
    by (vm_compute; reflexivity).
  assert (Hown : qr_owned qr_running)
    by (apply (bool_decide_unpack (qr_owned _)); vm_compute; exact I).
  pose proof (qr_expiry_callback qr_running 2%positive _ Hid eq_refl)
    as (_ & _ & Hx & Hs & Hc & Hgone & Hnone).
  split; [exact Hid|]. split; [exact Hown|].
  split; [exact Hx|]. split; [exact Hs|]. split; [exact Hc|].
  split; [|exact (Hnone Hown)].
  apply Hgone. vm_compute. reflexivity.
Defined.

(** C6 at the running QR flow. *)
Lemma unmount_clears_qr_timers_witness :
  live (qrExpireTimer qr_running) CbQRExpire qr_running ∧
  qrExpireTimer (state_of (onBeforeUnmount qr_running)) = None ∧
  qrCheckInterval (state_of (onBeforeUnmount qr_running)) = None ∧
  no_qr_timer (state_of (onBeforeUnmount qr_running)).
Proof.
  assert (Hlive : live (qrExpireTimer qr_running) CbQRExpire qr_running).
  { exists 2%positive, (Build_Timer CbQRExpire QR_EXPIRE_TIME false).
    repeat apply conj; vm_compute; reflexivity. }
  pose proof (unmount_clears_qr_timers qr_running (or_introl Hlive))
    as (Hx & Hc & _ & Hno).
  split; [exact Hlive|]. split; [exact Hx|]. split; [exact Hc|].
  apply Hno. apply (bool_decide_unpack (qr_owned _)). vm_compute. exact I.
Defined.

(** C7 for a switch to 'register' while the QR flow is running. *)
Lemma switchMode_hides_qr_witness :
  showWechatQR qr_running = true ∧
  showWechatQR (state_of (switchMode ModeRegister qr_running)) = false ∧
  qrExpireTimer (state_of (switchMode ModeRegister qr_running)) = None ∧
  qrCheckInterval (state_of (switchMode ModeRegister qr_running)) = None ∧
  timers (state_of (switchMode ModeRegister qr_running)) !! 1%positive = None ∧
  timers (state_of (switchMode ModeRegister qr_running)) !! 2%positive = None.
Proof.
  assert (Hq : showWechatQR qr_running = true) by (vm_compute; reflexivity).
  pose proof (switchMode_hides_qr ModeRegister qr_running
                (or_introl eq_refl) Hq)
    as (_ & Hs & _ & Hx & Hc & Hgone).
  split; [exact Hq|]. split; [exact Hs|]. split; [exact Hx|].
  split; [exact Hc|].
  split; apply Hgone; [right | left]; vm_compute; reflexivity.
Defined.

(** C8 at the page that is waiting for sendCode to answer. *)
Lemma resend_disabled_iff_witness :
  sample_reachable sending_world ∧
  AwaitSendCode ∈ inflight sending_world ∧
  resendDisabled CodeLogin (page sending_world) = true.
Proof.
  pose proof (resend_disabled_iff
                sample_validateLoginForm sample_validateRegisterForm
                sample_validateResetPasswordForm sample_phoneRegex_test
                sample_sendInterval sending_world CodeLogin
                sending_world_reachable)
    as (Hd & _ & _).
  assert (Hin : AwaitSendCode ∈ inflight sending_world)
    by (vm_compute; apply list_elem_of_here).
  split; [exact sending_world_reachable|]. split; [exact Hin|].
  apply Hd. left. exact Hin.
Defined.

(** C10 at two forms whose passwords differ. *)
Lemma password_mismatch_returns_early_witness :
  handleRegister sample_validateRegisterForm register_mismatch =
    (register_mismatch, [Toast_error "两次密码输入不一致"],
     Finished Returned) ∧
  handleForgotPassword sample_validateResetPasswordForm forgot_mismatch =
    (forgot_mismatch, [Toast_error "两次密码输入不一致"],
     Finished Returned).
Proof.
  assert (H1 : register_password (registerForm register_mismatch) ≠
               register_confirmPassword (registerForm register_mismatch))
    by (vm_compute; discriminate).
  assert (H2 : forgot_newPassword (forgotForm forgot_mismatch) ≠
               forgot_confirmPassword (forgotForm forgot_mismatch))
    by (vm_compute; discriminate).
  pose proof (password_mismatch_returns_early
                sample_validateRegisterForm sample_validateResetPasswordForm
                register_mismatch forgot_mismatch H1 H2)
    as (Hr & Hf & _).
  exact (conj Hr Hf).
Defined.

(** ** The further properties at concrete inputs *)

(** X1 at a three-digit phone number. *)
Lemma sendVerificationCode_rejects_bad_phone_witness :
  sample_phoneRegex_test "123" = false ∧
  sendVerificationCode sample_phoneRegex_test "123" CodeLogin init =
    (init, [Toast_error "请输入有效的手机号"], Finished Returned).
Proof.
  assert (H : sample_phoneRegex_test "123" = false) by (vm_compute; reflexivity).
  split; [exact H|].
  exact (proj1 (sendVerificationCode_rejects_bad_phone
                  sample_phoneRegex_test "123" CodeLogin init (or_intror H))).
Defined.

(** X4 for the running QR flow, by way of the register mode. *)
Lemma leaving_and_returning_hides_qr_witness :
  let back := state_of (switchMode ModeLogin
                          (state_of (switchMode ModeRegister qr_running))) in
  showWechatQR qr_running = true ∧
  qrColumnRendered back = true ∧ showWechatQR back = false.
Proof.
  cbv zeta.
  pose proof (leaving_and_returning_hides_qr ModeRegister qr_running
                (or_introl eq_refl)) as (_ & Hc & Hs & _).
  split; [vm_compute; reflexivity|]. exact (conj Hc Hs).
Defined.

(** X5 for a reset the API accepts. *)
Lemma reset_success_returns_to_login_witness :
  success accepted = true ∧
  currentMode (state_of (handleForgotPassword_resume (Resolved accepted)
                           forgot_mismatch)) = ModeLogin.
Proof.
  split; [reflexivity|].
  pose proof (reset_success_returns_to_login forgot_mismatch accepted "phone"
                eq_refl) as (_ & _ & Hm & _).
  exact Hm.
Defined.

(** X6 for an answer without success and without message. *)
Lemma failure_toast_falls_back_witness :
  success refused = false ∧
  sendVerificationCode_resume sample_sendInterval (Resolved refused)
    (page sending_world) =
    (set_isSendingCode false (page sending_world),
     [Toast_error "发送失败"], Returned).
Proof.
  split; [reflexivity|].
  exact (proj1 (failure_toast_falls_back sample_sendInterval
                  (page sending_world) refused eq_refl)).
Defined.

Lemma sample_validateLoginForm_no_value p :
  errors (sample_validateLoginForm p) !! "value" = None.
Proof.
  unfold sample_validateLoginForm.
  destruct (lp_phone p) as [ph|]; [destruct (String.eqb ph "")|];
    vm_compute; reflexivity.
Defined.

Lemma sample_validateRegisterForm_no_value p :
  errors (sample_validateRegisterForm p) !! "value" = None.
Proof.
  unfold sample_validateRegisterForm.
  destruct (String.eqb (rp_phone p) ""); vm_compute; reflexivity.
Defined.

Lemma sample_validateResetPasswordForm_no_value p :
  errors (sample_validateResetPasswordForm p) !! "value" = None.
Proof.
  unfold sample_validateResetPasswordForm.
  destruct (String.eqb (xp_phone p) ""); vm_compute; reflexivity.
Defined.

(** X9 for the sample validators, at a submit of the empty phone form. *)
Lemma submit_keeps_displayed_errors_witness :
  (∀ p, errors (sample_validateLoginForm p) !! "value" = None) ∧
  (∀ p, errors (sample_validateRegisterForm p) !! "value" = None) ∧
  (∀ p, errors (sample_validateResetPasswordForm p) !! "value" = None) ∧
  shown_errors (state_of (handlePhoneCodeLogin sample_validateLoginForm init))
    "phone" = shown_errors init "phone".
Proof.
  split; [exact sample_validateLoginForm_no_value|].
  split; [exact sample_validateRegisterForm_no_value|].
  split; [exact sample_validateResetPasswordForm_no_value|].
  pose proof (submit_keeps_displayed_errors
                sample_validateLoginForm sample_validateRegisterForm
                sample_validateResetPasswordForm init "phone"
                sample_validateLoginForm_no_value
                sample_validateRegisterForm_no_value
                sample_validateResetPasswordForm_no_value)
    as (_ & H & _).
  exact H.
Defined.

(** X10 at the running QR flow, whose expiry timeout has id 2. *)
Lemma overlays_after_expiry_and_refresh_witness :
  timers qr_running !! 2%positive = Some expire_timer ∧
  expiredOverlay (state_of (fire 2 qr_running)) = showWechatQR qr_running ∧
  expiredOverlay
    (state_of (refreshQRCode (state_of (fire 2 qr_running)))) = false.
Proof.
  assert (Hid : timers qr_running !! 2%positive = Some expire_timer)
    by (vm_compute; reflexivity).
  pose proof (overlays_after_expiry_and_refresh qr_running 2%positive _
                Hid eq_refl) as (_ & Hx & _ & _ & _ & Hr & _).
  exact (conj Hid (conj Hx Hr)).
Defined.

(** X11 for the sample interval of 60 seconds, after 60 ticks. *)
Lemma countdown_runs_down_witness :
  success accepted = true ∧ (1 ≤ sample_sendInterval)%Z ∧
  (sample_sendInterval ≤ 2 ^ 53)%Z ∧
  (Z.of_nat 60 ≤ sample_sendInterval)%Z ∧
  codeCountdown (page counting_world) = sample_sendInterval ∧
  codeCountdown (fire_times 60 1%positive (page counting_world)) = 0%Z.
Proof.
  assert (H1 : (1 ≤ sample_sendInterval)%Z) by (vm_compute; discriminate).
  assert (H2 : (sample_sendInterval ≤ 2 ^ 53)%Z)
    by (vm_compute; discriminate).
  assert (Hk : (Z.of_nat 60 ≤ sample_sendInterval)%Z)
    by (vm_compute; discriminate).
  pose proof (countdown_runs_down sample_sendInterval (page sending_world)
                accepted 60 CodeLogin eq_refl H1 H2 Hk) as (Hs & Hc & _).
  split; [reflexivity|]. split; [exact H1|]. split; [exact H2|].
  split; [exact Hk|].
  split; [exact Hs | exact Hc].
Defined.

(** X12 for a resend interval of 0 seconds. *)
Lemma countdown_with_nonpositive_interval_witness :
  success accepted = true ∧ (0 ≤ 0)%Z ∧
  resendDisabled CodeLogin
    (state_of (sendVerificationCode_resume 0 (Resolved accepted)
                 (page sending_world))) = false ∧
  codeCountdown
    (state_of (fire 1 (state_of (sendVerificationCode_resume 0
                                   (Resolved accepted)
                                   (page sending_world))))) = (-1)%Z.
Proof.
  assert (H0 : (0 ≤ 0)%Z) by reflexivity.
  pose proof (countdown_with_nonpositive_interval 0 (page sending_world)
                accepted CodeLogin eq_refl H0) as (Hd & _ & Hc & _).
  split; [reflexivity|]. split; [exact H0|]. split; [exact Hd | exact Hc].
Defined.

(** X13 at the page that is waiting for loginByPhoneCode to answer. *)
Lemma loading_only_while_submit_pending_witness :
  sample_reachable loading_world ∧
  isLoading (page loading_world) = true ∧
  submit_pending (inflight loading_world).
Proof.
  assert (Hl : isLoading (page loading_world) = true)
    by (vm_compute; reflexivity).
  split; [exact loading_world_reachable|]. split; [exact Hl|].
  exact (loading_only_while_submit_pending
           sample_validateLoginForm sample_validateRegisterForm
           sample_validateResetPasswordForm sample_phoneRegex_test
           sample_sendInterval loading_world loading_world_reachable Hl).
Defined.

(** X14 at the initial page. *)
Lemma qrScanned_only_before_first_start_witness :
  sample_reachable init_world ∧ qrScanned (page init_world) = true ∧
  wechatQRUrl (page init_world) = "" ∧ no_qr_timer (page init_world).
Proof.
  pose proof (qrScanned_only_before_first_start
                sample_validateLoginForm sample_validateRegisterForm
                sample_validateResetPasswordForm sample_phoneRegex_test
                sample_sendInterval init_world
                (reachable_init _ _ _ _ _) eq_refl) as (Hu & _ & _ & _ & Hn).
  split; [apply reachable_init|]. split; [reflexivity|].
  exact (conj Hu Hn).
Defined.

(** X15 at the page whose QR code has expired. *)
Lemma expired_means_poll_stopped_witness :
  sample_reachable qr_expired_world ∧
  qrExpired (page qr_expired_world) = true ∧
  qrCheckInterval (page qr_expired_world) = None ∧
  qrScanned (page qr_expired_world) = false.
Proof.
  assert (Hx : qrExpired (page qr_expired_world) = true)
    by (vm_compute; reflexivity).
  pose proof (expired_means_poll_stopped
                sample_validateLoginForm sample_validateRegisterForm
                sample_validateResetPasswordForm sample_phoneRegex_test
                sample_sendInterval qr_expired_world
                qr_expired_world_reachable Hx) as (Hc & Hs & _).
  split; [exact qr_expired_world_reachable|]. split; [exact Hx|].
  exact (conj Hc Hs).
Defined.

(** X16 at the page whose countdown has just started. *)
Lemma countdown_bounded_single_interval_witness :
  (1 ≤ sample_sendInterval)%Z ∧ sample_reachable counting_world ∧
  (0 ≤ codeCountdown (page counting_world) ≤ sample_sendInterval)%Z.
Proof.
  assert (H1 : (1 ≤ sample_sendInterval)%Z) by (vm_compute; discriminate).
  split; [exact H1|]. split; [exact counting_world_reachable|].
  exact (proj1 (countdown_bounded_single_interval
                  sample_validateLoginForm sample_validateRegisterForm
                  sample_validateResetPasswordForm sample_phoneRegex_test
                  sample_sendInterval counting_world H1
                  counting_world_reachable)).
Defined.

(** X17 at the page whose countdown has just started. *)
Lemma countdown_never_stuck_witness :
  (1 ≤ sample_sendInterval)%Z ∧ (sample_sendInterval ≤ 2 ^ 53)%Z ∧
  sample_reachable counting_world ∧
  (0 < codeCountdown (page counting_world))%Z ∧
  ∃ id,
    timers (page counting_world) !! id = Some countdown_timer ∧
    let done := fire_times (Z.to_nat (codeCountdown (page counting_world)))
                  id (page counting_world) in
    codeCountdown done = 0%Z ∧ timers done !! id = None ∧
    resendDisabled CodeRegister done = false.
Proof.
  assert (H1 : (1 ≤ sample_sendInterval)%Z) by (vm_compute; discriminate).
  assert (H2 : (sample_sendInterval ≤ 2 ^ 53)%Z)
    by (vm_compute; discriminate).
  assert (Hp : (0 < codeCountdown (page counting_world))%Z)
    by (vm_compute; reflexivity).
  split; [exact H1|]. split; [exact H2|].
  split; [exact counting_world_reachable|]. split; [exact Hp|].
  exact (countdown_never_stuck
           sample_validateLoginForm sample_validateRegisterForm
           sample_validateResetPasswordForm sample_phoneRegex_test
           sample_sendInterval counting_world CodeRegister H1 H2
           counting_world_reachable Hp).
Defined.

(** X18 at the page whose countdown has just started: its interval has
    id 1. *)
Lemma unmount_keeps_countdown_witness :
  sample_reachable counting_world ∧
  timers (page counting_world) !! 1%positive = Some countdown_timer ∧
  timers (state_of (onBeforeUnmount (page counting_world))) !! 1%positive =
    Some countdown_timer.
Proof.
  assert (Hid : timers (page counting_world) !! 1%positive =
                Some countdown_timer) by (vm_compute; reflexivity).
  split; [exact counting_world_reachable|]. split; [exact Hid|].
  exact (proj1 (unmount_keeps_countdown
                  sample_validateLoginForm sample_validateRegisterForm
                  sample_validateResetPasswordForm sample_phoneRegex_test
                  sample_sendInterval counting_world 1%positive
                  countdown_timer counting_world_reachable Hid eq_refl)).
Defined.

(** X19 at the page whose QR code has expired: the handle still holds the
    id 2 of the timeout that has fired. *)
Lemma expiry_handle_names_no_other_timer_witness :
  sample_reachable qr_expired_world ∧
  qrExpireTimer (page qr_expired_world) = Some 2%positive ∧
  (2 < nextTimer (page qr_expired_world))%positive.
Proof.
  assert (Hh : qrExpireTimer (page qr_expired_world) = Some 2%positive)
    by (vm_compute; reflexivity).
  split; [exact qr_expired_world_reachable|]. split; [exact Hh|].
  exact (proj1 (expiry_handle_names_no_other_timer
                  sample_validateLoginForm sample_validateRegisterForm
                  sample_validateResetPasswordForm sample_phoneRegex_test
                  sample_sendInterval qr_expired_world 2%positive
                  qr_expired_world_reachable Hh)).
Defined.

(** X20 at the page that is waiting for sendCode to answer. *)
Lemma resend_label_tracks_state_witness :
  (1 ≤ sample_sendInterval)%Z ∧ sample_reachable sending_world ∧
  (resendLabel (page sending_world) = LabelSending ↔
     isSendingCode (page sending_world) = true).
Proof.
  assert (H1 : (1 ≤ sample_sendInterval)%Z) by (vm_compute; discriminate).
  split; [exact H1|]. split; [exact sending_world_reachable|].
  exact (proj1 (resend_label_tracks_state
                  sample_validateLoginForm sample_validateRegisterForm
                  sample_validateResetPasswordForm sample_phoneRegex_test
                  sample_sendInterval sending_world CodeLogin H1
                  sending_world_reachable)).
Defined.
